(** * Poker-AI-Bot: the hand classifier and the two outs estimators of poker.py

    A shallow embedding of [src/poker.py]: the [Card], [Hand] and [HoleCards]
    classes, [hand_rank], [royal_probability] and [quads_prob].
    [Hand.__repr__] and [HoleCards.__repr__], which print a Python list of
    strings, are left out.

    Conventions of the embedding.
    - Python integers are [Z]; lengths and loop indices are [nat].
    - A raised exception is a value of [result]; the code never catches one.
    - A Python list of cards is an object that the constructors store without
      copying it, so card lists live in a [store] indexed by references and a
      [Hand] holds the reference it was given.  The [ranks] and [suits] lists
      are built by a list comprehension inside the constructor and never
      handed out by the code, so they are plain fields.
    - [int / int] and [+=] on the running probability are Python float
      operations; they are modelled by exact rational arithmetic in [Q]. *)

From Stdlib Require Import ZArith QArith List Bool Lia Permutation Sorted.
From Stdlib Require String.
Import ListNotations.

Open Scope Z_scope.

(** ** Exceptions *)

Inductive exn : Set := ValueError | KeyError | IndexError | ZeroDivisionError.

Inductive result (A : Type) : Type :=
| Ok (a : A)
| Raise (e : exn).

Arguments Ok {A} a.
Arguments Raise {A} e.

Definition bind {A B : Type} (m : result A) (f : A -> result B) : result B :=
  match m with
  | Ok a => f a
  | Raise e => Raise e
  end.

Notation "x <- m ;; k" := (bind m (fun x => k))
  (at level 61, m at next level, right associativity).

(** [for x in xs: s = body x s], stopping at the first exception. *)
Fixpoint for_each {A S : Type} (xs : list A) (body : A -> S -> result S) (s : S)
  : result S :=
  match xs with
  | [] => Ok s
  | x :: xs' => s' <- body x s ;; for_each xs' body s'
  end.

(** [range(n)] *)
Definition range (n : nat) : list nat := seq 0 n.

(** [l[i]] for a non-negative index. *)
Definition index {A : Type} (l : list A) (i : nat) : result A :=
  match nth_error l i with
  | Some a => Ok a
  | None => Raise IndexError
  end.

(** ** Builtins on lists of integers *)

Fixpoint Zlist_eqb (l1 l2 : list Z) : bool :=
  match l1, l2 with
  | [], [] => true
  | x :: l1', y :: l2' => (x =? y) && Zlist_eqb l1' l2'
  | _, _ => false
  end.

(** [len(set(l))] *)
Definition set_len (l : list Z) : nat := length (nodup Z.eq_dec l).

(** [l.count(x)] *)
Definition count (x : Z) (l : list Z) : Z := Z.of_nat (count_occ Z.eq_dec l x).

(** [x in l] *)
Definition mem (x : Z) (l : list Z) : bool := existsb (Z.eqb x) l.

Fixpoint insert (x : Z) (l : list Z) : list Z :=
  match l with
  | [] => [x]
  | y :: l' => if x <=? y then x :: l else y :: insert x l'
  end.

(** [sorted(l)] on integers. *)
Fixpoint sorted (l : list Z) : list Z :=
  match l with
  | [] => []
  | x :: l' => insert x (sorted l')
  end.

(** [min(l)]: [ValueError] on the empty list. *)
Definition py_min (l : list Z) : result Z :=
  match l with
  | [] => Raise ValueError
  | x :: l' => Ok (fold_left Z.min l' x)
  end.

(** ** Dictionaries with integer keys and values, in insertion order *)

Definition dict : Set := list (Z * Z).

Fixpoint dict_get (d : dict) (k : Z) : result Z :=
  match d with
  | [] => Raise KeyError
  | (k', v) :: d' => if k' =? k then Ok v else dict_get d' k
  end.

Fixpoint dict_set (d : dict) (k v : Z) : dict :=
  match d with
  | [] => [(k, v)]
  | (k', v') :: d' => if k' =? k then (k', v) :: d' else (k', v') :: dict_set d' k v
  end.

(** [d[k] += 1] *)
Definition dict_incr (d : dict) (k : Z) : result dict :=
  v <- dict_get d k ;; Ok (dict_set d k (v + 1)).

(** [d.values()] *)
Definition dict_values (d : dict) : list Z := map snd d.

(** ** math.comb and true division *)

(** The binomial coefficient by the multiplicative formula
    [C(n,k) = C(n-1,k-1) * n / k]; every division is exact. *)
Fixpoint binom (n : Z) (k : nat) : Z :=
  match k with
  | O => 1
  | S k' => binom (n - 1) k' * n / Z.of_nat k
  end.

(** [math.comb(n, k)]: [ValueError] on a negative argument, 0 when [k > n]. *)
Definition comb (n k : Z) : result Z :=
  if (n <? 0) || (k <? 0) then Raise ValueError
  else Ok (binom n (Z.to_nat k)).

(** [a / b] on integers. *)
Definition truediv (a b : Z) : result Q :=
  if b =? 0 then Raise ZeroDivisionError
  else Ok (inject_Z a / inject_Z b)%Q.

(** ** Cards *)

Record Card : Set := mkCard { suit : Z; rank : Z }.

(** [Card.__eq__] *)
Definition Card_eqb (c1 c2 : Card) : bool :=
  (suit c1 =? suit c2) && (rank c1 =? rank c2).

(** Modelled from the spec: the constant [royal_ranks] of the module [consts],
    which is imported by poker.py and is not part of the sources.  The spec
    gives the royal ranks as 1, 10, 11, 12, 13 and [hand_rank] compares a
    sorted list with the constant, so it is the list in increasing order. *)
Definition royal_ranks : list Z := [1; 10; 11; 12; 13].

(** ** The store of card lists *)

Definition ref : Set := nat.

Definition store : Set := ref -> list Card.

Definition store_set (h : store) (r : ref) (l : list Card) : store :=
  fun r' => if Nat.eqb r' r then l else h r'.

Definition empty_store : store := fun _ => [].

(** ** Hand *)

Module Hand.

Record t : Set := mk { cards : ref; ranks : list Z; suits : list Z }.

(** [Hand.__init__]: no check on the size; [cards] is the caller's list. *)
Definition init (cards : ref) (h : store) : result t :=
  Ok {| cards := cards;
        ranks := map rank (h cards);
        suits := map suit (h cards) |}.

(** [Hand.__len__] *)
Definition len (self : t) (h : store) : nat := length (h (cards self)).

(** [Hand.add_card]: the state is the object and the store; the list
    [self.cards] is appended to in place. *)
Definition add_card (card : Card) (st : t * store) : result unit * (t * store) :=
  let (self, h) := st in
  if Nat.eqb (length (h (cards self))) 5 then (Raise ValueError, st)
  else
    let h' := store_set h (cards self) (h (cards self) ++ [card]) in
    (Ok tt, ({| cards := cards self;
                ranks := ranks self ++ [rank card];
                suits := suits self ++ [suit card] |}, h')).

(** The parallel sequences mirror the list of cards. *)
Definition in_sync (h : store) (self : t) : Prop :=
  ranks self = map rank (h (cards self)) /\
  suits self = map suit (h (cards self)).

End Hand.

(** ** HoleCards *)

Module HoleCards.

Record t : Set := mk { cards : ref; ranks : list Z; suits : list Z }.

(** [HoleCards.__init__] *)
Definition init (cards : ref) (h : store) : result t :=
  if negb (Nat.eqb (length (h cards)) 2) then Raise ValueError
  else Ok {| cards := cards;
             ranks := map rank (h cards);
             suits := map suit (h cards) |}.

Definition in_sync (h : store) (self : t) : Prop :=
  ranks self = map rank (h (cards self)) /\
  suits self = map suit (h (cards self)).

End HoleCards.

(** ** hand_rank *)

Definition hand_rank (hand : Hand.t) : result Z :=
  (* all cards are the same suit (flush) *)
  if Nat.eqb (set_len (Hand.suits hand)) 1 then
    let ranks := sorted (Hand.ranks hand) in
    if Zlist_eqb ranks [1; 10; 11; 12; 13] then Ok 1
    else
      min_rank <- py_min ranks ;;
      if Zlist_eqb (map (fun rank => rank - min_rank) ranks) [0; 1; 2; 3; 4]
      then Ok 2
      else Ok 5
  (* only 2 different ranks in hand *)
  else if Nat.eqb (set_len (Hand.ranks hand)) 2 then
    r0 <- index (Hand.ranks hand) 0 ;;
    if mem (count r0 (Hand.ranks hand)) [1; 4] then Ok 3 else Ok 4
  (* only 3 different ranks in hand *)
  else if Nat.eqb (set_len (Hand.ranks hand)) 3 then
    if existsb (fun rank => count rank (Hand.ranks hand) =? 2) (Hand.ranks hand)
    then Ok 8
    else Ok 7
  (* pair *)
  else if Nat.eqb (set_len (Hand.ranks hand)) 4 then Ok 9
  else
    (* straight *)
    let ranks := sorted (Hand.ranks hand) in
    min_rank <- py_min ranks ;;
    if Zlist_eqb (map (fun rank => rank - min_rank) ranks) [0; 1; 2; 3; 4]
       || Zlist_eqb ranks royal_ranks
    then Ok 6
    else Ok 10.

(** ** royal_probability *)

Definition royal_probability (h : store) (board : Hand.t) (hole : HoleCards.t)
  : result Q :=
  let royal_suits : dict := [(1, 0); (2, 0); (3, 0); (4, 0)] in
  let board_len := Hand.len board h in
  royal_suits <-
    for_each (range board_len) (fun i royal_suits =>
      r <- index (Hand.ranks board) i ;;
      if mem r royal_ranks
      then s <- index (Hand.suits board) i ;; dict_incr royal_suits s
      else Ok royal_suits) royal_suits ;;
  royal_suits <-
    for_each (range 2) (fun i royal_suits =>
      r <- index (HoleCards.ranks hole) i ;;
      if mem r royal_ranks
      then s <- index (HoleCards.suits hole) i ;; dict_incr royal_suits s
      else Ok royal_suits) royal_suits ;;
  let board_len := Z.of_nat board_len in
  for_each (dict_values royal_suits) (fun royals probability =>
    if royals >=? board_len then
      n <- comb (52 - (board_len + 2 + 5 - royals))
                (5 - board_len - (5 - royals)) ;;
      d <- comb (52 - (board_len + 2)) (5 - board_len) ;;
      q <- truediv n d ;;
      Ok (probability + q)%Q
    else Ok probability) 0%Q.

(** ** quads_prob *)

Definition quads_prob (h : store) (board : Hand.t) (hole : HoleCards.t)
  : result Q :=
  let ranks : dict :=
    [(1, 0); (2, 0); (3, 0); (4, 0); (5, 0); (6, 0); (7, 0); (8, 0); (9, 0);
     (10, 0); (11, 0); (12, 0); (13, 0)] in
  let board_len := Hand.len board h in
  ranks <-
    for_each (range board_len) (fun i ranks =>
      r <- index (Hand.ranks board) i ;; dict_incr ranks r) ranks ;;
  ranks <-
    for_each (range 2) (fun i ranks =>
      r <- index (HoleCards.ranks hole) i ;; dict_incr ranks r) ranks ;;
  let board_len := Z.of_nat board_len in
  for_each (dict_values ranks) (fun count probability =>
    if 4 - count <=? 5 - board_len then
      n <- comb (52 - (board_len + 2 + 4 - count))
                (5 - board_len - (4 - count)) ;;
      d <- comb (52 - (board_len + 2)) (5 - board_len) ;;
      q <- truediv n d ;;
      Ok (probability + q)%Q
    else Ok probability) 0%Q.

(** ** Building concrete states *)

(** The store holding a board list at reference 0 and a hole list at 1. *)
Definition deal_store (board hole : list Card) : store :=
  store_set (store_set empty_store 0%nat board) 1%nat hole.

Definition board_of (board : list Card) : Hand.t :=
  Hand.mk 0%nat (map rank board) (map suit board).

Definition hole_of (hole : list Card) : HoleCards.t :=
  HoleCards.mk 1%nat (map rank hole) (map suit hole).

(** * Notions of the specification *)

(** ** Cards by name *)

Definition hearts : Z := 1.
Definition diamonds : Z := 2.
Definition spades : Z := 3.
Definition clubs : Z := 4.

Definition ace : Z := 1.
Definition ten : Z := 10.
Definition jack : Z := 11.
Definition queen : Z := 12.
Definition king : Z := 13.

Definition all_suits : list Z := [1; 2; 3; 4].
Definition all_ranks : list Z := [1; 2; 3; 4; 5; 6; 7; 8; 9; 10; 11; 12; 13].

(** A card of the deck. *)
Definition valid_card (c : Card) : Prop :=
  1 <= suit c <= 4 /\ 1 <= rank c <= 13.

Definition valid_cardb (c : Card) : bool :=
  (1 <=? suit c) && (suit c <=? 4) && (1 <=? rank c) && (rank c <=? 13).

(** No card twice, with the equality of [Card.__eq__]. *)
Fixpoint distinctb (cs : list Card) : bool :=
  match cs with
  | [] => true
  | c :: cs' => negb (existsb (Card_eqb c) cs') && distinctb cs'
  end.

(** ** Hands *)

(** What the spec asks of the parallel sequences: the lengths of the list of
    cards, and at every index the rank and the suit of the card there. *)
Definition mirrors (cards : list Card) (ranks suits : list Z) : Prop :=
  length ranks = length cards /\
  length suits = length cards /\
  forall i c, nth_error cards i = Some c ->
    nth_error ranks i = Some (rank c) /\ nth_error suits i = Some (suit c).

(** Five consecutive integers, in increasing order. *)
Definition is_run (l : list Z) : Prop :=
  exists m, l = [m; m + 1; m + 2; m + 3; m + 4].

(** ** Counting *)

(** The dictionary [d] after [d[k] += 1] for every [k] of [ks]. *)
Definition tally (d : dict) (ks : list Z) : dict :=
  map (fun p => (fst p, snd p + count (fst p) ks)) d.

Definition Zsum (l : list Z) : Z := fold_right Z.add 0 l.

Definition Qsum (l : list Q) : Q := fold_right Qplus 0%Q l.

(** Pascal's triangle: the number of [k]-subsets of an [n]-set. *)
Fixpoint choose (n k : nat) : nat :=
  match k, n with
  | O, _ => 1
  | S _, O => 0
  | S k', S n' => choose n' k' + choose n' k
  end.

(** [C(n,k)] of the spec, on integers. *)
Definition C (n k : Z) : Z := Z.of_nat (choose (Z.to_nat n) (Z.to_nat k)).

(** ** The estimators *)

(** The cards of rank 10, J, Q, K or A in suit [s] among [cs]. *)
Definition royals (s : Z) (cs : list Card) : Z :=
  Z.of_nat (length (filter (fun c => (suit c =? s) && mem (rank c) [1; 10; 11; 12; 13]) cs)).

(** The cards of rank [r] among [cs]. *)
Definition rank_count (r : Z) (cs : list Card) : Z :=
  Z.of_nat (length (filter (fun c => rank c =? r) cs)).

(** The numerators of the spec, with [known = board_len + 2]. *)
Definition royal_num (board_len royals : Z) : Z :=
  let known := board_len + 2 in
  if royals >=? board_len
  then C (52 - known - (5 - royals)) ((5 - board_len) - (5 - royals))
  else 0.

Definition quads_num (board_len rank_count : Z) : Z :=
  let known := board_len + 2 in
  if 4 - rank_count <=? 5 - board_len
  then C (52 - known - (4 - rank_count)) ((5 - board_len) - (4 - rank_count))
  else 0.

(** The contribution of one suit to [royal_probability], as the spec has it. *)
Definition royal_term (board_len royals : Z) : Q :=
  let known := board_len + 2 in
  if royals >=? board_len
  then (inject_Z (C (52 - known - (5 - royals)) ((5 - board_len) - (5 - royals)))
        / inject_Z (C (52 - known) (5 - board_len)))%Q
  else 0%Q.

(** The body of the last loop of both estimators, for a guard, the arguments
    of the numerator and those of the denominator. *)
Definition outs_body (guard : Z -> bool) (nn kk : Z -> Z) (dn dk : Z)
    (v : Z) (probability : Q) : result Q :=
  if guard v then
    n <- comb (nn v) (kk v) ;;
    d <- comb dn dk ;;
    q <- truediv n d ;;
    Ok (probability + q)%Q
  else Ok probability.

(** The numerator added for the count [v]. *)
Definition outs_num (guard : Z -> bool) (nn kk : Z -> Z) (v : Z) : Z :=
  if guard v then C (nn v) (kk v) else 0.

(** ** Example deals *)

Definition royal_flush_cards : list Card :=
  [mkCard hearts ace; mkCard hearts ten; mkCard hearts jack;
   mkCard hearts queen; mkCard hearts king].

(** Ace to five, in mixed suits. *)
Definition wheel_cards : list Card :=
  [mkCard hearts ace; mkCard diamonds 2; mkCard spades 3;
   mkCard clubs 4; mkCard hearts 5].

Definition ten_jack : list Card := [mkCard hearts ten; mkCard hearts jack].

Definition three_aces : list Card :=
  [mkCard hearts ace; mkCard diamonds ace; mkCard spades ace; mkCard hearts 5].

Definition seven_nine : list Card := [mkCard hearts 7; mkCard hearts 9].

Definition four_aces_king : list Card :=
  [mkCard hearts ace; mkCard diamonds ace; mkCard spades ace; mkCard clubs ace;
   mkCard hearts king].

(** A hole that repeats a card of the board [four_aces_king]. *)
Definition ace_again : list Card := [mkCard hearts ace; mkCard hearts queen].

Definition six_cards : list Card :=
  [mkCard hearts 2; mkCard hearts 3; mkCard hearts 4; mkCard hearts 5;
   mkCard hearts 6; mkCard hearts 7].

(** One list, at reference 0, given to two hands. *)
Definition shared_store : store := store_set empty_store 0%nat [mkCard hearts ace].

Definition shared_hand : Hand.t := Hand.mk 0%nat [ace] [hearts].

(** ** Further notions *)

(** How often each distinct rank occurs, in increasing order. *)
Definition multiplicities (l : list Z) : list Z :=
  sorted (map (fun v => count v l) (nodup Z.eq_dec l)).

(** [for card in cs: hand.add_card(card)], stopping at the first exception. *)
Fixpoint add_cards (cs : list Card) (st : Hand.t * store)
  : result unit * (Hand.t * store) :=
  match cs with
  | [] => (Ok tt, st)
  | card :: cs' =>
      match Hand.add_card card st with
      | (Ok _, st') => add_cards cs' st'
      | (Raise e, st') => (Raise e, st')
      end
  end.

(** The fifty-two cards. *)
Definition deck : list Card :=
  flat_map (fun s => map (fun r => mkCard s r) all_ranks) all_suits.

(** ** Card.__repr__ *)

(** [l[i]] for any integer: a negative index counts from the end of the
    list, and an index outside [-len(l) .. len(l)-1] raises [IndexError]. *)
Definition getitem {A : Type} (l : list A) (i : Z) : result A :=
  let n := Z.of_nat (length l) in
  if i <? 0
  then if i + n <? 0 then Raise IndexError else index l (Z.to_nat (i + n))
  else index l (Z.to_nat i).

Module Repr.

Import String.

(** [Card.__repr__] *)
Definition repr (self : Card) : result string :=
  let suits := ["Hearts"; "Diamonds"; "Spades"; "Clubs"]%string in
  let ranks := ["Ace"; "2"; "3"; "4"; "5"; "6"; "7"; "8"; "9"; "10";
                "Jack"; "Queen"; "King"]%string in
  r <- getitem ranks (rank self - 1) ;;
  s <- getitem suits (suit self - 1) ;;
  Ok (r ++ " of " ++ s)%string.

Definition repr_eqb (a b : result string) : bool :=
  match a, b with
  | Ok s, Ok t => String.eqb s t
  | _, _ => false
  end.

(** No two cards of [cs] print alike. *)
Definition repr_distinctb (cs : list Card) : bool :=
  forallb (fun c1 =>
    forallb (fun c2 => implb (repr_eqb (repr c1) (repr c2)) (Card_eqb c1 c2)) cs) cs.

End Repr.

(** ** Further example deals *)

Definition full_house_cards : list Card :=
  [mkCard hearts 2; mkCard diamonds 2; mkCard spades 2; mkCard clubs 7; mkCard hearts 7].

Definition two_pair_cards : list Card :=
  [mkCard hearts 2; mkCard diamonds 2; mkCard spades 9; mkCard clubs 7; mkCard hearts 7].

Definition pair_cards : list Card :=
  [mkCard hearts 2; mkCard diamonds 2; mkCard spades 9; mkCard clubs 7; mkCard hearts king].

Definition spade_hole : list Card := [mkCard spades 7; mkCard spades 9].

(** The board [three_aces] and the hole [seven_nine] with the five and the
    seven exchanged. *)
Definition three_aces_seven : list Card :=
  [mkCard hearts ace; mkCard diamonds ace; mkCard spades ace; mkCard hearts 7].

Definition five_nine : list Card := [mkCard hearts 5; mkCard hearts 9].

(** The ace of hearts seven times: five on the board, two in the hole. *)
Definition five_aces_of_hearts : list Card :=
  [mkCard hearts ace; mkCard hearts ace; mkCard hearts ace; mkCard hearts ace;
   mkCard hearts ace].

Definition two_aces_of_hearts : list Card := [mkCard hearts ace; mkCard hearts ace].

(** A card of rank 0 and an ace of a fifth suit. *)
Definition rank_zero : list Card := [mkCard hearts 0].

Definition fifth_suit : list Card := [mkCard 5 ace].

(** The second hand of two built on one list, after [add_card] on each. *)
Definition desynced_store : store :=
  store_set empty_store 0%nat
    [mkCard hearts ace; mkCard hearts king; mkCard hearts queen].

Definition desynced_hand : Hand.t := Hand.mk 0%nat [ace; queen] [hearts; hearts].

(** * Properties *)

Ltac case_if :=
  match goal with
  | |- context [if ?b then _ else _] => destruct b
  end.

(** ** The error monad and the loops *)

Lemma for_each_app {A S : Type} (xs ys : list A) (body : A -> S -> result S) (s : S) :
  for_each (xs ++ ys) body s = (s' <- for_each xs body s ;; for_each ys body s').
Proof.
  revert s; induction xs as [| x xs IH]; intros s; simpl; [reflexivity |].
  destruct (body x s) as [s' | e]; simpl; [apply IH | reflexivity].
Qed.

Lemma for_each_ext {A S : Type} (xs : list A) (f g : A -> S -> result S) (s : S) :
  (forall x s', In x xs -> f x s' = g x s') ->
  for_each xs f s = for_each xs g s.
Proof.
  revert s; induction xs as [| x xs IH]; intros s Hfg; simpl; [reflexivity |].
  rewrite (Hfg x s (or_introl eq_refl)).
  destruct (g x s) as [s' | e]; simpl; [| reflexivity].
  apply IH; intros y s'' Hy; apply Hfg; right; exact Hy.
Qed.

(** A loop over [range(len(l))] that reads [l[i]] is a loop over [l]. *)
Lemma for_each_seq_index {A S : Type} (pre l : list A) (body : A -> S -> result S) (s : S) :
  for_each (seq (length pre) (length l))
           (fun i s' => x <- index (pre ++ l) i ;; body x s') s
  = for_each l body s.
Proof.
  revert pre s; induction l as [| x l IH]; intros pre s; simpl; [reflexivity |].
  unfold index at 1.
  rewrite nth_error_app2 by lia.
  rewrite Nat.sub_diag; simpl.
  destruct (body x s) as [s' | e]; simpl; [| reflexivity].
  specialize (IH (pre ++ [x]) s').
  rewrite length_app in IH; simpl in IH.
  rewrite Nat.add_1_r in IH.
  rewrite <- app_assoc in IH; simpl in IH.
  exact IH.
Qed.

Lemma for_each_range_index {A S : Type} (l : list A) (body : A -> S -> result S) (s : S) :
  for_each (range (length l)) (fun i s' => x <- index l i ;; body x s') s
  = for_each l body s.
Proof. exact (for_each_seq_index [] l body s). Qed.

Lemma index_map {A B : Type} (f : A -> B) (l : list A) (i : nat) :
  index (map f l) i = (x <- index l i ;; Ok (f x)).
Proof.
  unfold index. rewrite nth_error_map.
  destruct (nth_error l i); reflexivity.
Qed.

(** ** Lists of integers *)

Lemma Zlist_eqb_eq (l1 l2 : list Z) : Zlist_eqb l1 l2 = true <-> l1 = l2.
Proof.
  revert l2; induction l1 as [| x l1 IH]; intros [| y l2]; simpl;
    try (split; [discriminate | discriminate]); [tauto |].
  rewrite andb_true_iff, Z.eqb_eq, IH.
  split; [intros [-> ->]; reflexivity | intros H; inversion H; auto].
Qed.

Lemma Zlist_eqb_neq (l1 l2 : list Z) : Zlist_eqb l1 l2 = false <-> l1 <> l2.
Proof.
  rewrite <- Zlist_eqb_eq. destruct (Zlist_eqb l1 l2); split; congruence.
Qed.

Lemma insert_Permutation (x : Z) (l : list Z) : Permutation (x :: l) (insert x l).
Proof.
  induction l as [| y l IH]; simpl; [reflexivity |].
  destruct (x <=? y); [reflexivity |].
  rewrite perm_swap. apply perm_skip, IH.
Qed.

Lemma sorted_Permutation (l : list Z) : Permutation l (sorted l).
Proof.
  induction l as [| x l IH]; simpl; [constructor |].
  rewrite <- insert_Permutation. apply perm_skip, IH.
Qed.

Lemma insert_Sorted (x : Z) (l : list Z) :
  Sorted Z.le l -> Sorted Z.le (insert x l).
Proof.
  induction l as [| y l IH]; intros Hs; simpl.
  - repeat constructor.
  - destruct (x <=? y) eqn:E.
    + constructor; [exact Hs | constructor; lia].
    + inversion Hs as [| ? ? Hs' Hhd]; subst.
      constructor; [apply IH, Hs' |].
      destruct l as [| z l]; simpl.
      * constructor; lia.
      * destruct (x <=? z); constructor; try lia.
        inversion Hhd; assumption.
Qed.

(** [sorted] returns the ranks in non-decreasing order. *)
Lemma sorted_Sorted (l : list Z) : Sorted Z.le (sorted l).
Proof.
  induction l as [| x l IH]; simpl; [constructor | apply insert_Sorted, IH].
Qed.

Lemma sorted_length (l : list Z) : length (sorted l) = length l.
Proof. symmetry; apply Permutation_length, sorted_Permutation. Qed.

Lemma py_min_nonempty (l : list Z) : l <> [] -> exists m, py_min l = Ok m.
Proof. destruct l as [| x l]; [congruence | intros _; eexists; reflexivity]. Qed.

Lemma nodup_all_equal (s : Z) (l : list Z) :
  l <> [] -> (forall x, In x l -> x = s) -> nodup Z.eq_dec l = [s].
Proof.
  induction l as [| x l IH]; [congruence |]; intros _ Hall.
  assert (x = s) by (apply Hall; left; reflexivity); subst x.
  destruct l as [| y l].
  - reflexivity.
  - assert (Hin : In s (y :: l)).
    { left. apply Hall. right; left; reflexivity. }
    cbn [nodup]. destruct (in_dec Z.eq_dec s (y :: l)) as [_ | Hn]; [| contradiction].
    apply IH; [discriminate |].
    intros z Hz; apply Hall; right; exact Hz.
Qed.

Lemma set_len_two (a b : Z) (l : list Z) :
  In a l -> In b l -> a <> b -> (2 <= set_len l)%nat.
Proof.
  intros Ha Hb Hab. unfold set_len.
  apply (NoDup_incl_length (l := [a; b])).
  - constructor; [simpl; intuition congruence | constructor; [simpl; tauto | constructor]].
  - intros x [<- | [<- | []]]; apply nodup_In; assumption.
Qed.

Lemma set_len_NoDup (l : list Z) : NoDup l -> set_len l = length l.
Proof. intros H; unfold set_len; rewrite nodup_fixed_point; auto. Qed.

(** The test of [hand_rank] for a run, on a list of five integers. *)
Lemma run_test (l : list Z) (m : Z) :
  length l = 5%nat -> py_min l = Ok m ->
  (Zlist_eqb (map (fun rank => rank - m) l) [0; 1; 2; 3; 4] = true <-> is_run l).
Proof.
  intros Hlen Hmin.
  destruct l as [| a [| b [| c [| d [| e [| ? ?]]]]]]; try discriminate.
  simpl in Hmin. injection Hmin as Hm.
  rewrite Zlist_eqb_eq. unfold is_run. simpl. split.
  - intros H. injection H as H0 H1 H2 H3 H4.
    exists a. repeat f_equal; lia.
  - intros [n Hn]. injection Hn as -> -> -> -> ->.
    repeat f_equal; lia.
Qed.

(** ** Hands in the store *)

Lemma in_sync_lengths (h : store) (hand : Hand.t) :
  Hand.in_sync h hand ->
  length (Hand.ranks hand) = Hand.len hand h /\
  length (Hand.suits hand) = Hand.len hand h.
Proof.
  intros [Hr Hs]. unfold Hand.len. rewrite Hr, Hs, !length_map. auto.
Qed.

Lemma nonempty_length {A : Type} (l : list A) : length l <> 0%nat -> l <> [].
Proof. destruct l; simpl; congruence. Qed.

Lemma sorted_nonempty (l : list Z) : l <> [] -> sorted l <> [].
Proof.
  intros H E. apply H. apply length_zero_iff_nil.
  rewrite <- sorted_length, E. reflexivity.
Qed.

(** ** The classifier *)

(** C5: a five-card hand of one suit is a royal flush (1) when its sorted
    ranks are 1, 10, 11, 12, 13, else a straight flush (2) when they are five
    consecutive integers, else a flush (5); nothing is asked of the
    multiplicities of the ranks, the flush test comes first. *)
Theorem hand_rank_flush (h : store) (hand : Hand.t) (s : Z) :
  Hand.in_sync h hand ->
  Hand.len hand h = 5%nat ->
  (forall c, In c (h (Hand.cards hand)) -> suit c = s) ->
  let ranks := sorted (Hand.ranks hand) in
  (ranks = [1; 10; 11; 12; 13] -> hand_rank hand = Ok 1) /\
  (ranks <> [1; 10; 11; 12; 13] -> is_run ranks -> hand_rank hand = Ok 2) /\
  (ranks <> [1; 10; 11; 12; 13] -> ~ is_run ranks -> hand_rank hand = Ok 5).
Proof.
  intros Hsync Hlen Hsuit ranks.
  destruct (in_sync_lengths h hand Hsync) as [Hlr Hls].
  assert (Hflush : set_len (Hand.suits hand) = 1%nat).
  { unfold set_len. rewrite (nodup_all_equal s); [reflexivity | |].
    - apply nonempty_length. rewrite Hls, Hlen. discriminate.
    - destruct Hsync as [_ ->]. intros x Hx.
      apply in_map_iff in Hx. destruct Hx as (c & <- & Hc). apply Hsuit, Hc. }
  assert (Hl5 : length ranks = 5%nat).
  { unfold ranks. rewrite sorted_length, Hlr. exact Hlen. }
  destruct (py_min_nonempty ranks) as [m Hm].
  { apply nonempty_length. rewrite Hl5. discriminate. }
  pose proof (run_test ranks m Hl5 Hm) as Hrun.
  unfold hand_rank. rewrite Hflush. simpl Nat.eqb. cbv iota.
  fold ranks. cbv zeta.
  repeat split.
  - intros ->. reflexivity.
  - intros Hne Hr. apply Zlist_eqb_neq in Hne. rewrite Hne, Hm. simpl.
    apply Hrun in Hr. rewrite Hr. reflexivity.
  - intros Hne Hr. apply Zlist_eqb_neq in Hne. rewrite Hne, Hm. simpl.
    destruct (Zlist_eqb _ [0; 1; 2; 3; 4]) eqn:E; [| reflexivity].
    exfalso. apply Hr, Hrun. reflexivity.
Qed.

(** C6: a five-card hand with at least two suits and five distinct ranks is
    a straight (6) when its sorted ranks are five consecutive integers or
    are 1, 10, 11, 12, 13, and a high card (10) otherwise. *)
Theorem hand_rank_straight (h : store) (hand : Hand.t) (c1 c2 : Card) :
  Hand.in_sync h hand ->
  Hand.len hand h = 5%nat ->
  In c1 (h (Hand.cards hand)) -> In c2 (h (Hand.cards hand)) ->
  suit c1 <> suit c2 ->
  NoDup (map rank (h (Hand.cards hand))) ->
  let ranks := sorted (Hand.ranks hand) in
  (is_run ranks \/ ranks = [1; 10; 11; 12; 13] -> hand_rank hand = Ok 6) /\
  (~ is_run ranks -> ranks <> [1; 10; 11; 12; 13] -> hand_rank hand = Ok 10).
Proof.
  intros Hsync Hlen Hc1 Hc2 Hne Hnd ranks.
  destruct (in_sync_lengths h hand Hsync) as [Hlr Hls].
  assert (Hsuits : Nat.eqb (set_len (Hand.suits hand)) 1 = false).
  { apply Nat.eqb_neq.
    enough (2 <= set_len (Hand.suits hand))%nat by lia.
    destruct Hsync as [_ ->].
    apply (set_len_two (suit c1) (suit c2)); auto using in_map. }
  assert (Hranks : set_len (Hand.ranks hand) = 5%nat).
  { rewrite set_len_NoDup; [rewrite Hlr; exact Hlen |].
    destruct Hsync as [-> _]. exact Hnd. }
  assert (Hl5 : length ranks = 5%nat).
  { unfold ranks. rewrite sorted_length, Hlr. exact Hlen. }
  destruct (py_min_nonempty ranks) as [m Hm].
  { apply nonempty_length. rewrite Hl5. discriminate. }
  pose proof (run_test ranks m Hl5 Hm) as Hrun.
  unfold hand_rank. rewrite Hsuits, Hranks. simpl Nat.eqb. cbv iota.
  fold ranks. cbv zeta. rewrite Hm. simpl bind.
  split.
  - intros [Hr | Hr].
    + apply Hrun in Hr. rewrite Hr. reflexivity.
    + assert (E : Zlist_eqb ranks royal_ranks = true) by (apply Zlist_eqb_eq, Hr).
      rewrite E, orb_true_r. reflexivity.
  - intros Hr Hroyal.
    assert (E1 : Zlist_eqb (map (fun rank => rank - m) ranks) [0; 1; 2; 3; 4] = false).
    { destruct (Zlist_eqb _ [0; 1; 2; 3; 4]) eqn:E; [| reflexivity].
      exfalso. apply Hr, Hrun. reflexivity. }
    assert (E2 : Zlist_eqb ranks royal_ranks = false) by (apply Zlist_eqb_neq, Hroyal).
    rewrite E1, E2. reflexivity.
Qed.

(** [hand_rank] has no check on the size of the hand: whatever the length of
    a non-empty hand, one of the ten category codes is returned. *)
Lemma hand_rank_code (hand : Hand.t) :
  Hand.ranks hand <> [] ->
  exists code, hand_rank hand = Ok code /\ 1 <= code <= 10.
Proof.
  intros Hne.
  destruct (py_min_nonempty (sorted (Hand.ranks hand))) as [m Hm].
  { apply sorted_nonempty, Hne. }
  assert (H0 : exists r0, index (Hand.ranks hand) 0 = Ok r0).
  { destruct (Hand.ranks hand) as [| r0 rs]; [congruence | exists r0; reflexivity]. }
  destruct H0 as [r0 Hr0].
  unfold hand_rank. cbv zeta. rewrite Hm, Hr0. simpl bind.
  repeat case_if; eexists; (split; [reflexivity | lia]).
Qed.

(** C7, as the code has it: no length is rejected as such.  Every non-empty
    hand, of any length, gets a category code; the empty hand alone fails,
    with the [ValueError] of [min] on an empty list. *)
Theorem hand_rank_any_length (h : store) (hand : Hand.t) :
  Hand.in_sync h hand ->
  (Hand.len hand h <> 0%nat ->
   exists code, hand_rank hand = Ok code /\ 1 <= code <= 10) /\
  (Hand.len hand h = 0%nat -> hand_rank hand = Raise ValueError).
Proof.
  intros Hsync.
  destruct (in_sync_lengths h hand Hsync) as [Hlr Hls]. split.
  - intros Hlen. apply hand_rank_code, nonempty_length. rewrite Hlr. exact Hlen.
  - intros Hlen. rewrite Hlen in Hlr, Hls.
    apply length_zero_iff_nil in Hlr, Hls.
    unfold hand_rank. rewrite Hlr, Hls. reflexivity.
Qed.

(** ** Construction and add_card *)

(** C8: [HoleCards] refuses a list that has not exactly two cards; [add_card]
    on a hand of five cards raises and changes neither the hand nor the
    store; on a hand of fewer than five cards it succeeds. *)
Theorem size_errors (h : store) (cards : ref) (card : Card) (self : Hand.t) :
  (length (h cards) <> 2%nat -> HoleCards.init cards h = Raise ValueError) /\
  (Hand.len self h = 5%nat ->
   Hand.add_card card (self, h) = (Raise ValueError, (self, h))) /\
  ((Hand.len self h < 5)%nat ->
   exists st, Hand.add_card card (self, h) = (Ok tt, st)).
Proof.
  unfold HoleCards.init, Hand.add_card, Hand.len. repeat split.
  - intros Hlen. apply Nat.eqb_neq in Hlen. rewrite Hlen. reflexivity.
  - intros ->. reflexivity.
  - intros Hlen.
    assert (E : Nat.eqb (length (h (Hand.cards self))) 5 = false)
      by (apply Nat.eqb_neq; lia).
    rewrite E. eexists; reflexivity.
Qed.

(** C10: the constructor of [Hand] accepts a list of any length and returns a
    hand of that length; the size is looked at by [add_card] alone, which
    raises exactly when the hand holds five cards. *)
Theorem Hand_init_any_length (h : store) (cards : ref) (card : Card) :
  exists hand,
    Hand.init cards h = Ok hand /\
    Hand.len hand h = length (h cards) /\
    Hand.in_sync h hand /\
    (fst (Hand.add_card card (hand, h)) = Raise ValueError
     <-> length (h cards) = 5%nat).
Proof.
  eexists. split; [reflexivity |]. split; [reflexivity |].
  split; [split; reflexivity |].
  unfold Hand.add_card. cbn [Hand.cards].
  destruct (Nat.eqb (length (h cards)) 5) eqn:E; cbn [fst].
  - apply Nat.eqb_eq in E. tauto.
  - apply Nat.eqb_neq in E. split; [discriminate | contradiction].
Qed.

Lemma map_mirrors (cards : list Card) :
  mirrors cards (map rank cards) (map suit cards).
Proof.
  unfold mirrors. rewrite !length_map. repeat split.
  all: match goal with
       | E : nth_error _ _ = Some _ |- _ => rewrite nth_error_map, E; reflexivity
       end.
Qed.

Lemma store_set_same (h : store) (r : ref) (l : list Card) : store_set h r l r = l.
Proof. unfold store_set. rewrite Nat.eqb_refl. reflexivity. Qed.

Lemma store_set_other (h : store) (r r' : ref) (l : list Card) :
  r' <> r -> store_set h r l r' = h r'.
Proof. intros H. unfold store_set. apply Nat.eqb_neq in H. rewrite H. reflexivity. Qed.

(** A successful [add_card] keeps a hand in sync, and keeps every hand built
    on another list as it was. *)
Lemma add_card_in_sync (h h' : store) (card : Card) (self self' : Hand.t) :
  Hand.in_sync h self ->
  Hand.add_card card (self, h) = (Ok tt, (self', h')) ->
  Hand.in_sync h' self'.
Proof.
  intros [Hr Hs]. unfold Hand.add_card.
  destruct (Nat.eqb (length (h (Hand.cards self))) 5); [discriminate |].
  intros E. injection E as <- <-.
  unfold Hand.in_sync. simpl. rewrite store_set_same, !map_app, Hr, Hs.
  split; reflexivity.
Qed.

Lemma add_card_frame (h h' : store) (card : Card) (self self' other : Hand.t) :
  Hand.cards other <> Hand.cards self ->
  Hand.in_sync h other ->
  Hand.add_card card (self, h) = (Ok tt, (self', h')) ->
  Hand.in_sync h' other.
Proof.
  intros Hne [Hr Hs]. unfold Hand.add_card.
  destruct (Nat.eqb (length (h (Hand.cards self))) 5); [discriminate |].
  intros E. injection E as <- <-.
  unfold Hand.in_sync. rewrite store_set_other by exact Hne. auto.
Qed.

(** C9, as the code has it: the sequences mirror the cards after either
    constructor, and after a successful [add_card] on a hand whose sequences
    mirrored its cards before the call. *)
Theorem sync_preserved (h : store) (cards : ref) (card : Card) (self : Hand.t) :
  (forall hand, Hand.init cards h = Ok hand ->
     mirrors (h (Hand.cards hand)) (Hand.ranks hand) (Hand.suits hand)) /\
  (forall hole, HoleCards.init cards h = Ok hole ->
     mirrors (h (HoleCards.cards hole)) (HoleCards.ranks hole) (HoleCards.suits hole)) /\
  (Hand.in_sync h self ->
   forall self' h', Hand.add_card card (self, h) = (Ok tt, (self', h')) ->
     Hand.in_sync h' self' /\
     mirrors (h' (Hand.cards self')) (Hand.ranks self') (Hand.suits self')).
Proof.
  split; [| split].
  - intros hand H. injection H as <-. apply map_mirrors.
  - intros hole. unfold HoleCards.init. case_if; [discriminate |].
    intros H. injection H as <-. apply map_mirrors.
  - intros Hsync self' h' Hadd.
    pose proof (add_card_in_sync _ _ _ _ _ Hsync Hadd) as Hsync'.
    split; [exact Hsync' |].
    destruct Hsync' as [-> ->]. apply map_mirrors.
Qed.

(** ** Dictionaries as tallies *)

Lemma dict_incr_map (d : dict) (k : Z) :
  In k (map fst d) -> NoDup (map fst d) ->
  dict_incr d k =
  Ok (map (fun p => (fst p, if fst p =? k then snd p + 1 else snd p)) d).
Proof.
  unfold dict_incr.
  induction d as [| [k' v] d IH]; simpl; [tauto |].
  intros Hin Hnd. inversion Hnd as [| ? ? Hnotin Hnd']; subst.
  destruct (k' =? k) eqn:E; simpl.
  - apply Z.eqb_eq in E; subst k'. do 2 f_equal.
    rewrite <- (map_id d) at 1. apply map_ext_in.
    intros [k1 v1] H1; simpl.
    destruct (k1 =? k) eqn:E1; [| reflexivity].
    apply Z.eqb_eq in E1; subst k1. exfalso; apply Hnotin.
    change k with (fst (k, v1)). apply in_map, H1.
  - destruct Hin as [Hin | Hin]; [apply Z.eqb_neq in E; congruence |].
    specialize (IH Hin Hnd').
    destruct (dict_get d k) as [v0 | e]; simpl in *; [| discriminate].
    injection IH as IH. rewrite IH. reflexivity.
Qed.

Lemma count_cons (x k : Z) (ks : list Z) :
  count x (k :: ks) = (if x =? k then 1 else 0) + count x ks.
Proof.
  unfold count. simpl. destruct (Z.eq_dec k x) as [-> | Hne].
  - rewrite Z.eqb_refl. lia.
  - assert (E : (x =? k) = false) by (apply Z.eqb_neq; congruence).
    rewrite E. lia.
Qed.

Lemma count_nonneg (x : Z) (ks : list Z) : 0 <= count x ks.
Proof. unfold count. lia. Qed.

Lemma for_each_dict_incr (ks : list Z) (d : dict) :
  (forall k, In k ks -> In k (map fst d)) -> NoDup (map fst d) ->
  for_each ks (fun k d' => dict_incr d' k) d = Ok (tally d ks).
Proof.
  revert d; induction ks as [| k ks IH]; intros d Hin Hnd; simpl.
  - f_equal. unfold tally. rewrite <- (map_id d) at 1. apply map_ext.
    intros [k v]; simpl. unfold count; simpl. f_equal; lia.
  - rewrite dict_incr_map by auto using in_eq. simpl.
    assert (Hfst : forall d0 : dict,
      map fst (map (fun p => (fst p, if fst p =? k then snd p + 1 else snd p)) d0)
      = map fst d0).
    { intros d0. rewrite map_map. reflexivity. }
    rewrite IH.
    + f_equal. unfold tally. rewrite map_map. apply map_ext.
      intros [k1 v1]; simpl. rewrite count_cons.
      destruct (k1 =? k); f_equal; lia.
    + rewrite Hfst. intros k1 H1. apply Hin. right; exact H1.
    + rewrite Hfst. exact Hnd.
Qed.

(** A conditional update per card is an update per selected key. *)
Lemma for_each_filter_map {A S : Type} (P : A -> bool) (key : A -> Z)
      (f : Z -> S -> result S) (cs : list A) (s : S) :
  for_each cs (fun c s' => if P c then f (key c) s' else Ok s') s
  = for_each (map key (filter P cs)) f s.
Proof.
  revert s; induction cs as [| c cs IH]; intros s; simpl; [reflexivity |].
  destruct (P c); simpl; [| apply IH].
  destruct (f (key c) s); simpl; [apply IH | reflexivity].
Qed.

Lemma count_map_filter {A : Type} (P : A -> bool) (key : A -> Z) (k : Z) (cs : list A) :
  count k (map key (filter P cs))
  = Z.of_nat (length (filter (fun c => (key c =? k) && P c) cs)).
Proof.
  induction cs as [| c cs IH]; [reflexivity |]. simpl.
  destruct (P c); simpl.
  - rewrite count_cons, IH, (Z.eqb_sym k).
    destruct (key c =? k); simpl length; lia.
  - rewrite andb_false_r. exact IH.
Qed.

(** The loop of the estimators over the positions of a hand. *)
Lemma royal_loop (cs : list Card) (d : dict) :
  for_each (range (length cs)) (fun i royal_suits =>
      r <- index (map rank cs) i ;;
      if mem r royal_ranks
      then s <- index (map suit cs) i ;; dict_incr royal_suits s
      else Ok royal_suits) d
  = for_each (map suit (filter (fun c => mem (rank c) royal_ranks) cs))
             (fun k d' => dict_incr d' k) d.
Proof.
  rewrite <- (for_each_filter_map (fun c => mem (rank c) royal_ranks) suit
                (fun k d' => dict_incr d' k)).
  rewrite <- (for_each_range_index cs).
  apply for_each_ext. intros i d' _.
  rewrite !index_map. destruct (index cs i); reflexivity.
Qed.

Lemma quads_loop (cs : list Card) (d : dict) :
  for_each (range (length cs)) (fun i ranks =>
      r <- index (map rank cs) i ;; dict_incr ranks r) d
  = for_each (map rank cs) (fun k d' => dict_incr d' k) d.
Proof.
  rewrite <- (for_each_range_index (map rank cs)), length_map. reflexivity.
Qed.

(** ** Binomial coefficients *)

Lemma choose_0_r (n : nat) : choose n 0 = 1%nat.
Proof. destruct n; reflexivity. Qed.

Lemma choose_S (n k : nat) :
  choose (S n) (S k) = (choose n k + choose n (S k))%nat.
Proof. reflexivity. Qed.

Lemma choose_absorb (n k : nat) :
  (S k * choose (S n) (S k) = S n * choose n k)%nat.
Proof.
  revert k; induction n as [| n IH]; intros k.
  - destruct k as [| k]; simpl; lia.
  - rewrite (choose_S (S n)).
    destruct k as [| k].
    + pose proof (IH O) as H0. rewrite !choose_0_r in *. lia.
    + pose proof (IH k) as H1. pose proof (IH (S k)) as H2.
      rewrite (choose_S n (S k)) in *. rewrite (choose_S n k) in *.
      nia.
Qed.

(** [math.comb] computes the binomial coefficient. *)
Lemma binom_choose (n k : nat) : binom (Z.of_nat n) k = Z.of_nat (choose n k).
Proof.
  revert n; induction k as [| k IH]; intros n; [destruct n; reflexivity |].
  cbn [binom]. destruct n as [| n].
  - simpl Z.of_nat at 2. rewrite Z.mul_0_r. reflexivity.
  - replace (Z.of_nat (S n) - 1) with (Z.of_nat n) by lia.
    rewrite IH.
    pose proof (choose_absorb n k) as H.
    apply (f_equal Z.of_nat) in H. rewrite !Nat2Z.inj_mul in H.
    rewrite (Z.mul_comm _ (Z.of_nat (S n))), <- H, Z.mul_comm.
    apply Z.div_mul. lia.
Qed.

Lemma binom_C (n k : Z) : 0 <= n -> 0 <= k -> binom n (Z.to_nat k) = C n k.
Proof.
  intros Hn Hk. unfold C. rewrite <- binom_choose, Z2Nat.id by exact Hn. reflexivity.
Qed.

Lemma comb_C (n k : Z) : 0 <= n -> 0 <= k -> comb n k = Ok (C n k).
Proof.
  intros Hn Hk. unfold comb.
  assert (E : (n <? 0) || (k <? 0) = false).
  { apply orb_false_iff; split; apply Z.ltb_ge; assumption. }
  rewrite E, binom_C by assumption. reflexivity.
Qed.

Lemma C_nonneg (n k : Z) : 0 <= C n k.
Proof. unfold C. lia. Qed.

(** ** The summation loop of the estimators *)

Section OutsLoop.

Variables (guard : Z -> bool) (nn kk : Z -> Z) (dn dk : Z).

Hypothesis dn_nonneg : 0 <= dn.
Hypothesis dk_nonneg : 0 <= dk.
Hypothesis denominator_pos : 0 < C dn dk.

Lemma outs_num_nonneg (v : Z) : 0 <= outs_num guard nn kk v.
Proof. unfold outs_num. destruct (guard v); [apply C_nonneg | lia]. Qed.

Lemma outs_loop (vs : list Z) (p0 : Q) :
  (forall v, In v vs -> guard v = true -> 0 <= nn v /\ 0 <= kk v) ->
  exists p, for_each vs (outs_body guard nn kk dn dk) p0 = Ok p /\
    (p == p0 + inject_Z (Zsum (map (outs_num guard nn kk) vs)) / inject_Z (C dn dk))%Q.
Proof.
  assert (HD : ~ (inject_Z (C dn dk) == 0)%Q).
  { unfold Qeq; simpl. lia. }
  revert p0; induction vs as [| v vs IH]; intros p0 Hargs.
  - exists p0. split; [reflexivity |]. simpl. field. exact HD.
  - assert (Hstep : exists p1, outs_body guard nn kk dn dk v p0 = Ok p1 /\
      (p1 == p0 + inject_Z (outs_num guard nn kk v) / inject_Z (C dn dk))%Q).
    { unfold outs_body, outs_num. destruct (guard v) eqn:G.
      - destruct (Hargs v (or_introl eq_refl) G) as [Hn Hk].
        rewrite !comb_C by assumption. simpl bind. unfold truediv.
        assert (E : (C dn dk =? 0) = false) by (apply Z.eqb_neq; lia).
        rewrite E. simpl bind. eexists; split; reflexivity.
      - exists p0. split; [reflexivity |]. field. exact HD. }
    destruct Hstep as (p1 & Hp1 & Hq1).
    destruct (IH p1) as (p & Hp & Hq).
    { intros w Hw. apply Hargs. right; exact Hw. }
    exists p. simpl for_each. rewrite Hp1. simpl bind. split; [exact Hp |].
    rewrite Hq, Hq1. simpl. rewrite inject_Z_plus. field. exact HD.
Qed.

End OutsLoop.

Lemma Zsum_nonneg (l : list Z) : Forall (fun v => 0 <= v) l -> 0 <= Zsum l.
Proof. induction 1; simpl; lia. Qed.

Lemma fraction_bounds (s d : Z) :
  0 <= s <= d -> 0 < d -> (0 <= inject_Z s / inject_Z d <= 1)%Q.
Proof.
  intros [Hs Hd] Hpos.
  assert (HD : (0 < inject_Z d)%Q) by (unfold Qlt; simpl; lia).
  split.
  - apply Qle_shift_div_l; [exact HD |]. rewrite Qmult_0_l.
    unfold Qle; simpl; lia.
  - apply Qle_shift_div_r; [exact HD |]. rewrite Qmult_1_l.
    unfold Qle; simpl; lia.
Qed.

(** ** Cards of the deck *)

Lemma Card_eqb_eq (c1 c2 : Card) : Card_eqb c1 c2 = true <-> c1 = c2.
Proof.
  unfold Card_eqb. rewrite andb_true_iff, !Z.eqb_eq.
  destruct c1, c2; simpl. split; [intros [-> ->]; reflexivity | intros H; inversion H; auto].
Qed.

Lemma valid_cards_check (cs : list Card) :
  forallb valid_cardb cs = true -> Forall valid_card cs.
Proof.
  rewrite forallb_forall, Forall_forall. intros H c Hc.
  specialize (H c Hc). unfold valid_cardb in H. unfold valid_card. lia.
Qed.

Lemma distinct_check (cs : list Card) : distinctb cs = true -> NoDup cs.
Proof.
  induction cs as [| c cs IH]; simpl; [constructor |].
  rewrite andb_true_iff, negb_true_iff. intros [Hc Hcs].
  constructor; [| apply IH, Hcs].
  intros Hin.
  assert (E : existsb (Card_eqb c) cs = true).
  { apply existsb_exists. exists c. split; [exact Hin | apply Card_eqb_eq; reflexivity]. }
  congruence.
Qed.

(** ** What the estimators compute *)

Lemma count_app (x : Z) (l1 l2 : list Z) :
  count x (l1 ++ l2) = count x l1 + count x l2.
Proof. unfold count. rewrite count_occ_app. lia. Qed.

Lemma tally_fst (d : dict) (ks : list Z) : map fst (tally d ks) = map fst d.
Proof. unfold tally. rewrite map_map. reflexivity. Qed.

Lemma tally_app (d : dict) (ks1 ks2 : list Z) :
  tally (tally d ks1) ks2 = tally d (ks1 ++ ks2).
Proof.
  unfold tally. rewrite map_map. apply map_ext.
  intros [k v]; simpl. rewrite count_app. f_equal; lia.
Qed.

Lemma tally_values (keys ks : list Z) :
  dict_values (tally (map (fun k => (k, 0)) keys) ks)
  = map (fun k => count k ks) keys.
Proof.
  unfold dict_values, tally. rewrite !map_map. apply map_ext.
  intros k; simpl. lia.
Qed.

Lemma C_denominator_pos (b : Z) : 0 <= b <= 5 -> 0 < C (52 - (b + 2)) (5 - b).
Proof.
  intros H.
  assert (Hb : b = 0 \/ b = 1 \/ b = 2 \/ b = 3 \/ b = 4 \/ b = 5) by lia.
  destruct Hb as [-> | [-> | [-> | [-> | [-> | ->]]]]]; vm_compute; reflexivity.
Qed.

Lemma in_all_suits (s : Z) : 1 <= s <= 4 -> In s all_suits.
Proof. intros H. unfold all_suits. simpl. lia. Qed.

Lemma in_all_ranks (r : Z) : 1 <= r <= 13 -> In r all_ranks.
Proof. intros H. unfold all_ranks. simpl. lia. Qed.

Lemma count_rank (r : Z) (cs : list Card) :
  count r (map rank cs) = rank_count r cs.
Proof.
  unfold rank_count.
  induction cs as [| c cs IH]; [reflexivity |].
  simpl map. rewrite count_cons, IH, (Z.eqb_sym r). simpl filter.
  destruct (rank c =? r); simpl length; lia.
Qed.

Lemma royal_num_outs (b v : Z) :
  outs_num (fun v => v >=? b) (fun v => 52 - (b + 2 + 5 - v))
           (fun v => 5 - b - (5 - v)) v
  = royal_num b v.
Proof.
  unfold outs_num, royal_num. cbv zeta. case_if; [f_equal; lia | reflexivity].
Qed.

Lemma quads_num_outs (b v : Z) :
  outs_num (fun v => 4 - v <=? 5 - b) (fun v => 52 - (b + 2 + 4 - v))
           (fun v => 5 - b - (4 - v)) v
  = quads_num b v.
Proof.
  unfold outs_num, quads_num. cbv zeta. case_if; [f_equal; lia | reflexivity].
Qed.

(** [royal_probability] on a board of at most five cards and a hole of two:
    the numerators of the four suits over the common denominator. *)
Lemma royal_probability_fraction (h : store) (board : Hand.t) (hole : HoleCards.t) :
  Hand.in_sync h board -> HoleCards.in_sync h hole ->
  (Hand.len board h <= 5)%nat ->
  length (h (HoleCards.cards hole)) = 2%nat ->
  Forall valid_card (h (Hand.cards board) ++ h (HoleCards.cards hole)) ->
  let b := Z.of_nat (Hand.len board h) in
  let cs := h (Hand.cards board) ++ h (HoleCards.cards hole) in
  exists q, royal_probability h board hole = Ok q /\
    (q == inject_Z (Zsum (map (fun s => royal_num b (royals s cs)) all_suits))
          / inject_Z (C (52 - (b + 2)) (5 - b)))%Q.
Proof.
  destruct board as [bc br bs], hole as [hc hr hs].
  unfold Hand.in_sync, HoleCards.in_sync, Hand.len.
  cbn [Hand.cards Hand.ranks Hand.suits HoleCards.cards HoleCards.ranks HoleCards.suits].
  intros [-> ->] [-> ->] Hlen Hhole Hvalid.
  set (b := Z.of_nat (length (h bc))). set (cs := h bc ++ h hc) in *.
  set (royal := fun c : Card => mem (rank c) royal_ranks).
  unfold royal_probability, Hand.len.
  cbn [Hand.cards Hand.ranks Hand.suits HoleCards.ranks HoleCards.suits].
  fold b. rewrite <- Hhole.
  assert (Hkeys : forall cs' k, incl cs' cs ->
            In k (map suit (filter royal cs')) -> In k all_suits).
  { intros cs' k Hincl Hk. apply in_map_iff in Hk. destruct Hk as (c & <- & Hc).
    apply filter_In in Hc. destruct Hc as [Hc _].
    rewrite Forall_forall in Hvalid. apply in_all_suits, Hvalid, Hincl, Hc. }
  assert (Hnd : NoDup all_suits).
  { unfold all_suits. repeat constructor; simpl; lia. }
  change [(1, 0); (2, 0); (3, 0); (4, 0)] with (map (fun k => (k, 0)) all_suits).
  assert (Hfst : map fst (map (fun k : Z => (k, 0)) all_suits) = all_suits) by reflexivity.
  rewrite royal_loop. fold royal.
  rewrite for_each_dict_incr;
    [| rewrite Hfst; intros k; apply Hkeys, incl_appl, incl_refl | rewrite Hfst; exact Hnd].
  cbn [bind].
  rewrite royal_loop. fold royal.
  rewrite for_each_dict_incr;
    [| rewrite tally_fst, Hfst; intros k; apply Hkeys, incl_appr, incl_refl
     | rewrite tally_fst, Hfst; exact Hnd].
  cbn [bind].
  rewrite tally_app, <- map_app, <- filter_app, tally_values. fold cs.
  pose proof (C_denominator_pos b ltac:(lia)) as HD.
  destruct (outs_loop (fun v => v >=? b)
              (fun v => 52 - (b + 2 + 5 - v)) (fun v => 5 - b - (5 - v))
              (52 - (b + 2)) (5 - b) ltac:(lia) ltac:(lia) HD
              (map (fun k => count k (map suit (filter royal cs))) all_suits)
              0%Q) as (q & Hq & Hsum).
  { intros v _ G. lia. }
  exists q. split; [exact Hq |].
  rewrite Hsum, Qplus_0_l, map_map.
  enough (E : forall s,
    outs_num (fun v => v >=? b) (fun v => 52 - (b + 2 + 5 - v))
             (fun v => 5 - b - (5 - v)) (count s (map suit (filter royal cs)))
    = royal_num b (royals s cs)).
  { rewrite (map_ext _ _ E). reflexivity. }
  intros s. rewrite count_map_filter. fold (royals s cs).
  apply royal_num_outs.
Qed.

(** [quads_prob], likewise, over the thirteen ranks. *)
Lemma quads_prob_fraction (h : store) (board : Hand.t) (hole : HoleCards.t) :
  Hand.in_sync h board -> HoleCards.in_sync h hole ->
  (Hand.len board h <= 5)%nat ->
  length (h (HoleCards.cards hole)) = 2%nat ->
  Forall valid_card (h (Hand.cards board) ++ h (HoleCards.cards hole)) ->
  let b := Z.of_nat (Hand.len board h) in
  let cs := h (Hand.cards board) ++ h (HoleCards.cards hole) in
  exists q, quads_prob h board hole = Ok q /\
    (q == inject_Z (Zsum (map (fun r => quads_num b (rank_count r cs)) all_ranks))
          / inject_Z (C (52 - (b + 2)) (5 - b)))%Q.
Proof.
  destruct board as [bc br bs], hole as [hc hr hs].
  unfold Hand.in_sync, HoleCards.in_sync, Hand.len.
  cbn [Hand.cards Hand.ranks Hand.suits HoleCards.cards HoleCards.ranks HoleCards.suits].
  intros [-> ->] [-> ->] Hlen Hhole Hvalid.
  set (b := Z.of_nat (length (h bc))). set (cs := h bc ++ h hc) in *.
  unfold quads_prob, Hand.len.
  cbn [Hand.cards Hand.ranks Hand.suits HoleCards.ranks HoleCards.suits].
  fold b. rewrite <- Hhole.
  assert (Hkeys : forall cs' k, incl cs' cs ->
            In k (map rank cs') -> In k all_ranks).
  { intros cs' k Hincl Hk. apply in_map_iff in Hk. destruct Hk as (c & <- & Hc).
    rewrite Forall_forall in Hvalid. apply in_all_ranks, Hvalid, Hincl, Hc. }
  assert (Hnd : NoDup all_ranks).
  { unfold all_ranks. repeat constructor; simpl; lia. }
  match goal with
  | |- context [for_each _ _ ?d0] =>
      change d0 with (map (fun k => (k, 0)) all_ranks)
  end.
  assert (Hfst : map fst (map (fun k : Z => (k, 0)) all_ranks) = all_ranks) by reflexivity.
  rewrite quads_loop.
  rewrite for_each_dict_incr;
    [| rewrite Hfst; intros k; apply Hkeys, incl_appl, incl_refl | rewrite Hfst; exact Hnd].
  cbn [bind].
  rewrite quads_loop.
  rewrite for_each_dict_incr;
    [| rewrite tally_fst, Hfst; intros k; apply Hkeys, incl_appr, incl_refl
     | rewrite tally_fst, Hfst; exact Hnd].
  cbn [bind].
  rewrite tally_app, <- map_app, tally_values. fold cs.
  pose proof (C_denominator_pos b ltac:(lia)) as HD.
  destruct (outs_loop (fun v => 4 - v <=? 5 - b)
              (fun v => 52 - (b + 2 + 4 - v)) (fun v => 5 - b - (4 - v))
              (52 - (b + 2)) (5 - b) ltac:(lia) ltac:(lia) HD
              (map (fun k => count k (map rank cs)) all_ranks)
              0%Q) as (q & Hq & Hsum).
  { intros v Hv G. apply in_map_iff in Hv. destruct Hv as (k & <- & _).
    pose proof (count_nonneg k (map rank cs)). lia. }
  exists q. split; [exact Hq |].
  rewrite Hsum, Qplus_0_l, map_map.
  enough (E : forall r,
    outs_num (fun v => 4 - v <=? 5 - b) (fun v => 52 - (b + 2 + 4 - v))
             (fun v => 5 - b - (4 - v)) (count r (map rank cs))
    = quads_num b (rank_count r cs)).
  { rewrite (map_ext _ _ E). reflexivity. }
  intros r. rewrite count_rank. apply quads_num_outs.
Qed.

Lemma inject_Z_nonzero (d : Z) : d <> 0 -> ~ (inject_Z d == 0)%Q.
Proof. intros H. unfold Qeq; simpl. lia. Qed.

Lemma Qsum_fraction (num : Z -> Z) (term : Z -> Q) (d : Z) (keys : list Z) :
  0 < d ->
  (forall k, term k == inject_Z (num k) / inject_Z d)%Q ->
  (inject_Z (Zsum (map num keys)) / inject_Z d == Qsum (map term keys))%Q.
Proof.
  intros Hd Hterm.
  assert (HD : ~ (inject_Z d == 0)%Q) by (unfold Qeq; simpl; lia).
  induction keys as [| k keys IH]; simpl.
  - field. exact HD.
  - rewrite <- IH, Hterm, inject_Z_plus. field. exact HD.
Qed.

Lemma royal_term_num (b v : Z) :
  0 < C (52 - (b + 2)) (5 - b) ->
  (royal_term b v == inject_Z (royal_num b v) / inject_Z (C (52 - (b + 2)) (5 - b)))%Q.
Proof.
  intros Hd.
  assert (HD : ~ (inject_Z (C (52 - (b + 2)) (5 - b)) == 0)%Q)
    by (apply inject_Z_nonzero; lia).
  unfold royal_term, royal_num. cbv zeta. case_if; [reflexivity |].
  field. exact HD.
Qed.

(** C1: on a board of at most five cards and a hole of two,
    [royal_probability] returns the sum over the four suits of
    [C(52-known-(5-royals), (5-board_len)-(5-royals)) / C(52-known, 5-board_len)]
    for the suits with [royals >= board_len], and of 0 for the others. *)
Theorem royal_probability_spec (h : store) (board : Hand.t) (hole : HoleCards.t) :
  Hand.in_sync h board -> HoleCards.in_sync h hole ->
  (Hand.len board h <= 5)%nat ->
  length (h (HoleCards.cards hole)) = 2%nat ->
  Forall valid_card (h (Hand.cards board) ++ h (HoleCards.cards hole)) ->
  let board_len := Z.of_nat (Hand.len board h) in
  let cs := h (Hand.cards board) ++ h (HoleCards.cards hole) in
  exists q, royal_probability h board hole = Ok q /\
    (q == Qsum (map (fun s => royal_term board_len (royals s cs)) all_suits))%Q.
Proof.
  intros Hb Hh Hlen Hhole Hvalid board_len cs.
  destruct (royal_probability_fraction h board hole Hb Hh Hlen Hhole Hvalid)
    as (q & Hq & Hsum).
  exists q. split; [exact Hq |].
  fold board_len cs in Hsum. rewrite Hsum.
  assert (Hd : 0 < C (52 - (board_len + 2)) (5 - board_len)).
  { apply C_denominator_pos. unfold board_len. lia. }
  apply (Qsum_fraction (fun s => royal_num board_len (royals s cs))
           (fun s => royal_term board_len (royals s cs)) _ all_suits Hd).
  intros s. apply royal_term_num, Hd.
Qed.

Lemma deal_store_init (board hole : list Card) :
  length hole = 2%nat ->
  Hand.init 0%nat (deal_store board hole) = Ok (board_of board) /\
  HoleCards.init 1%nat (deal_store board hole) = Ok (hole_of hole).
Proof.
  intros H. split; [reflexivity |].
  unfold HoleCards.init. change (deal_store board hole 1%nat) with hole.
  rewrite H. reflexivity.
Qed.

(** C2, as the code has it: with an empty board every suit passes the guard
    [royals >= 0]; hearts contributes [C(47,2)/C(50,5)] and each of the other
    three suits [C(45,0)/C(50,5)]. *)
Theorem royal_probability_ten_jack (h : store) (board : Hand.t) (hole : HoleCards.t) :
  Hand.in_sync h board -> HoleCards.in_sync h hole ->
  h (Hand.cards board) = [] ->
  Permutation [mkCard hearts ten; mkCard hearts jack] (h (HoleCards.cards hole)) ->
  royal_term 0 (royals hearts [mkCard hearts ten; mkCard hearts jack])
    = (inject_Z (C 47 2) / inject_Z (C 50 5))%Q /\
  (forall s, In s [diamonds; spades; clubs] ->
     royal_term 0 (royals s [mkCard hearts ten; mkCard hearts jack])
     = (inject_Z (C 45 0) / inject_Z (C 50 5))%Q) /\
  exists q, royal_probability h board hole = Ok q /\
    (q == inject_Z (C 47 2) / inject_Z (C 50 5)
          + 3 * (inject_Z (C 45 0) / inject_Z (C 50 5)))%Q.
Proof.
  intros Hb Hh Hboard Hhole.
  split; [reflexivity |]. split.
  { intros s [<- | [<- | [<- | []]]]; reflexivity. }
  apply Permutation_length_2_inv in Hhole.
  destruct (royal_probability_fraction h board hole Hb Hh) as (q & Hq & Hsum).
  - unfold Hand.len. rewrite Hboard. simpl. lia.
  - destruct Hhole as [-> | ->]; reflexivity.
  - rewrite Hboard. apply valid_cards_check.
    destruct Hhole as [-> | ->]; reflexivity.
  - exists q. split; [exact Hq |].
    unfold Hand.len in Hsum. rewrite Hboard in Hsum.
    rewrite Hsum. destruct Hhole as [-> | ->]; vm_compute; reflexivity.
Qed.

(** The value is not [C(47,2)/C(50,5)]: the three other suits are counted. *)
Lemma royal_probability_ten_jack_all_suits :
  let hole := [mkCard hearts ten; mkCard hearts jack] in
  Hand.init 0%nat (deal_store [] hole) = Ok (board_of []) /\
  HoleCards.init 1%nat (deal_store [] hole) = Ok (hole_of hole) /\
  exists q,
    royal_probability (deal_store [] hole) (board_of []) (hole_of hole) = Ok q /\
    ~ (q == inject_Z (C 47 2) / inject_Z (C 50 5))%Q.
Proof.
  split; [reflexivity |]. split; [reflexivity |].
  eexists. split; [vm_compute; reflexivity |].
  vm_compute. discriminate.
Qed.

(** ** Counting cards *)

Lemma rank_count_app (r : Z) (cs1 cs2 : list Card) :
  rank_count r (cs1 ++ cs2) = rank_count r cs1 + rank_count r cs2.
Proof. unfold rank_count. rewrite filter_app, length_app. lia. Qed.

Lemma rank_count_nonneg (r : Z) (cs : list Card) : 0 <= rank_count r cs.
Proof. unfold rank_count. lia. Qed.

Lemma rank_count_length (r : Z) (cs : list Card) :
  rank_count r cs <= Z.of_nat (length cs).
Proof. unfold rank_count. pose proof (filter_length_le (fun c => rank c =? r) cs). lia. Qed.

Lemma rank_count_two (r r' : Z) (cs : list Card) :
  r <> r' -> rank_count r cs + rank_count r' cs <= Z.of_nat (length cs).
Proof.
  intros Hne. unfold rank_count.
  induction cs as [| c cs IH]; simpl; [lia |].
  destruct (rank c =? r) eqn:E1, (rank c =? r') eqn:E2; simpl length; lia.
Qed.

Lemma rank_count_notin (r : Z) (cs : list Card) :
  ~ In r (map rank cs) -> rank_count r cs = 0.
Proof.
  intros Hnotin. unfold rank_count.
  induction cs as [| c cs IH]; simpl; [reflexivity |].
  destruct (rank c =? r) eqn:E.
  - exfalso. apply Hnotin. left. apply Z.eqb_eq, E.
  - apply IH. intros H. apply Hnotin. right. exact H.
Qed.

Lemma rank_count_absent (r : Z) (cs : list Card) :
  (forall c, In c cs -> rank c <> r) -> rank_count r cs = 0.
Proof.
  intros H. apply rank_count_notin. intros Hin.
  apply in_map_iff in Hin. destruct Hin as (c & Hc & Hin). exact (H c Hin Hc).
Qed.

(** C3: on a board of four cards with three aces and a hole of two cards
    whose ranks are not on the board, [quads_prob] returns
    [C(45,0)/C(46,1)], that is 1/46. *)
Theorem quads_prob_three_aces (h : store) (board : Hand.t) (hole : HoleCards.t) :
  Hand.in_sync h board -> HoleCards.in_sync h hole ->
  Hand.len board h = 4%nat ->
  length (h (HoleCards.cards hole)) = 2%nat ->
  Forall valid_card (h (Hand.cards board) ++ h (HoleCards.cards hole)) ->
  rank_count ace (h (Hand.cards board)) = 3 ->
  (forall c, In c (h (HoleCards.cards hole)) ->
     ~ In (rank c) (map rank (h (Hand.cards board)))) ->
  exists q, quads_prob h board hole = Ok q /\
    (q == inject_Z (C 45 0) / inject_Z (C 46 1))%Q /\ (q == 1 # 46)%Q.
Proof.
  intros Hb Hh Hlen Hhole Hvalid Haces Hunrelated.
  destruct (quads_prob_fraction h board hole Hb Hh) as (q & Hq & Hsum);
    [lia | exact Hhole | exact Hvalid |].
  rewrite Hlen in Hsum. change (Z.of_nat 4) with 4 in Hsum.
  unfold Hand.len in Hlen.
  set (bs := h (Hand.cards board)) in *. set (hs := h (HoleCards.cards hole)) in *.
  assert (Hhole_count : forall r, In r (map rank bs) -> rank_count r hs = 0).
  { intros r Hr. apply rank_count_absent. intros c Hc E.
    apply (Hunrelated c Hc). rewrite E. exact Hr. }
  assert (Hace : rank_count ace (bs ++ hs) = 3).
  { rewrite rank_count_app, Haces, Hhole_count; [reflexivity |].
    destruct (in_dec Z.eq_dec ace (map rank bs)) as [Hin | Hnotin]; [exact Hin |].
    apply rank_count_notin in Hnotin. lia. }
  assert (Hother : forall r, r <> ace -> quads_num 4 (rank_count r (bs ++ hs)) = 0).
  { intros r Hr.
    assert (Hle : rank_count r (bs ++ hs) <= 2).
    { rewrite rank_count_app.
      pose proof (rank_count_two r ace bs Hr) as H2.
      pose proof (rank_count_length r hs) as H3.
      pose proof (rank_count_nonneg r bs) as H4.
      destruct (in_dec Z.eq_dec r (map rank bs)) as [Hin | Hnotin].
      - rewrite (Hhole_count r Hin). lia.
      - rewrite (rank_count_notin r bs Hnotin). lia. }
    unfold quads_num. cbv zeta.
    assert (E : (4 - rank_count r (bs ++ hs) <=? 5 - 4) = false)
      by (apply Z.leb_gt; lia).
    rewrite E. reflexivity. }
  assert (Hvalue : (q == inject_Z (C 45 0) / inject_Z (C 46 1))%Q).
  { rewrite Hsum. unfold all_ranks. cbn [map Zsum fold_right].
    change 1 with ace at 1. rewrite Hace.
    rewrite !Hother by (unfold ace; lia).
    reflexivity. }
  exists q. split; [exact Hq |]. split; [exact Hvalue |].
  rewrite Hvalue. reflexivity.
Qed.

(** ** Bounds *)

Lemma Zsum_map_add {A : Type} (f g : A -> Z) (l : list A) :
  Zsum (map (fun k => f k + g k) l) = Zsum (map f l) + Zsum (map g l).
Proof. induction l as [| k l IH]; simpl; lia. Qed.

Lemma Zsum_indicator (x : Z) (keys : list Z) :
  NoDup keys -> Zsum (map (fun k => if k =? x then 1 else 0) keys) <= 1.
Proof.
  induction 1 as [| k keys Hnotin Hnd IH]; simpl; [lia |].
  destruct (k =? x) eqn:E; [| lia].
  apply Z.eqb_eq in E; subst k.
  enough (Zsum (map (fun k => if k =? x then 1 else 0) keys) = 0) by lia.
  clear IH Hnd. induction keys as [| k keys IH]; simpl; [reflexivity |].
  destruct (k =? x) eqn:E.
  - apply Z.eqb_eq in E. subst k. exfalso. apply Hnotin. left; reflexivity.
  - rewrite IH; [reflexivity |]. intros H. apply Hnotin. right; exact H.
Qed.

(** Distinct keys tally at most the number of updates. *)
Lemma Zsum_counts (keys ks : list Z) :
  NoDup keys -> Zsum (map (fun k => count k ks) keys) <= Z.of_nat (length ks).
Proof.
  intros Hnd. induction ks as [| x ks IH].
  - enough (Zsum (map (fun k => count k []) keys) = 0) by (simpl; lia).
    clear Hnd. induction keys as [| k keys IHk]; simpl; [reflexivity |].
    unfold count in *. simpl count_occ in *. lia.
  - rewrite (map_ext _ _ (fun k => count_cons k x ks)), Zsum_map_add.
    pose proof (Zsum_indicator x keys Hnd). simpl length. lia.
Qed.

(** A sum over counts between 0 and 5, grouped by the value of the count. *)
Lemma histogram (g : Z -> Z) (vs : list Z) :
  Forall (fun v => 0 <= v <= 5) vs ->
  Zsum (map g vs) =
    g 0 * count 0 vs + g 1 * count 1 vs + g 2 * count 2 vs
    + g 3 * count 3 vs + g 4 * count 4 vs + g 5 * count 5 vs.
Proof.
  induction 1 as [| v vs Hv _ IH]; [unfold count; simpl; lia |].
  simpl Zsum. simpl map. cbn [fold_right]. fold (Zsum (map g vs)).
  rewrite IH, !count_cons.
  assert (Hcases : v = 0 \/ v = 1 \/ v = 2 \/ v = 3 \/ v = 4 \/ v = 5) by lia.
  destruct Hcases as [-> | [-> | [-> | [-> | [-> | ->]]]]]; simpl Z.eqb; cbv iota; lia.
Qed.

Lemma count_notin (x : Z) (vs : list Z) : ~ In x vs -> count x vs = 0.
Proof.
  intros H. unfold count. rewrite (proj1 (count_occ_not_In Z.eq_dec vs x) H).
  reflexivity.
Qed.

Lemma royals_count (s : Z) (cs : list Card) :
  royals s cs = count s (map suit (filter (fun c => mem (rank c) royal_ranks) cs)).
Proof. rewrite count_map_filter. reflexivity. Qed.

(** Among distinct cards, at most five royal ranks in a suit and at most four
    suits in a rank. *)
Lemma royals_le_5 (s : Z) (cs : list Card) :
  NoDup cs -> 0 <= royals s cs <= 5.
Proof.
  intros Hnd. unfold royals. split; [lia |].
  set (f := filter _ cs).
  enough (length (map rank f) <= length royal_ranks)%nat
    by (rewrite length_map in *; simpl in *; lia).
  apply NoDup_incl_length.
  - apply NoDup_map_NoDup_ForallPairs; [| apply NoDup_filter, Hnd].
    intros c1 c2 H1 H2 E.
    apply filter_In in H1, H2.
    destruct H1 as [_ H1], H2 as [_ H2].
    apply andb_true_iff in H1, H2.
    destruct H1 as [H1 _], H2 as [H2 _]. apply Z.eqb_eq in H1, H2.
    destruct c1, c2; simpl in *; congruence.
  - intros r Hr. apply in_map_iff in Hr. destruct Hr as (c & <- & Hc).
    apply filter_In in Hc. destruct Hc as [_ Hc].
    apply andb_true_iff in Hc. destruct Hc as [_ Hc].
    unfold mem in Hc. apply existsb_exists in Hc.
    destruct Hc as (r & Hr & E). apply Z.eqb_eq in E. subst r. exact Hr.
Qed.

Lemma rank_count_le_4 (r : Z) (cs : list Card) :
  NoDup cs -> Forall valid_card cs -> 0 <= rank_count r cs <= 4.
Proof.
  intros Hnd Hvalid. unfold rank_count. split; [lia |].
  set (f := filter _ cs).
  enough (length (map suit f) <= length all_suits)%nat
    by (rewrite length_map in *; simpl in *; lia).
  apply NoDup_incl_length.
  - apply NoDup_map_NoDup_ForallPairs; [| apply NoDup_filter, Hnd].
    intros c1 c2 H1 H2 E.
    apply filter_In in H1, H2.
    destruct H1 as [_ H1], H2 as [_ H2]. apply Z.eqb_eq in H1, H2.
    destruct c1, c2; simpl in *; congruence.
  - intros s Hs. apply in_map_iff in Hs. destruct Hs as (c & <- & Hc).
    apply filter_In in Hc. destruct Hc as [Hc _].
    rewrite Forall_forall in Hvalid. apply in_all_suits, Hvalid, Hc.
Qed.

Ltac evaluate f :=
  repeat match goal with
         | |- context [f ?b ?i] =>
             let v := eval vm_compute in (f b i) in
             replace (f b i) with v by (vm_compute; reflexivity)
         end.

(** The numerators of the four suits never exceed the denominator. *)
Lemma royal_bound (b n0 n1 n2 n3 n4 n5 : Z) :
  0 <= b <= 5 ->
  0 <= n0 -> 0 <= n1 -> 0 <= n2 -> 0 <= n3 -> 0 <= n4 -> 0 <= n5 ->
  n0 + n1 + n2 + n3 + n4 + n5 = 4 ->
  n1 + 2 * n2 + 3 * n3 + 4 * n4 + 5 * n5 <= b + 2 ->
  royal_num b 0 * n0 + royal_num b 1 * n1 + royal_num b 2 * n2
  + royal_num b 3 * n3 + royal_num b 4 * n4 + royal_num b 5 * n5
  <= C (52 - (b + 2)) (5 - b).
Proof.
  intros Hb H0 H1 H2 H3 H4 H5 Hall Hsum.
  assert (Hcases : b = 0 \/ b = 1 \/ b = 2 \/ b = 3 \/ b = 4 \/ b = 5) by lia.
  destruct Hcases as [-> | [-> | [-> | [-> | [-> | ->]]]]];
    evaluate royal_num; evaluate C; lia.
Qed.

(** The numerators of the thirteen ranks never exceed the denominator. *)
Lemma quads_bound (b n0 n1 n2 n3 n4 : Z) :
  0 <= b <= 5 ->
  0 <= n0 -> 0 <= n1 -> 0 <= n2 -> 0 <= n3 -> 0 <= n4 ->
  n0 + n1 + n2 + n3 + n4 = 13 ->
  n1 + 2 * n2 + 3 * n3 + 4 * n4 <= b + 2 ->
  quads_num b 0 * n0 + quads_num b 1 * n1 + quads_num b 2 * n2
  + quads_num b 3 * n3 + quads_num b 4 * n4
  <= C (52 - (b + 2)) (5 - b).
Proof.
  intros Hb H0 H1 H2 H3 H4 Hall Hsum.
  assert (Hcases : b = 0 \/ b = 1 \/ b = 2 \/ b = 3 \/ b = 4 \/ b = 5) by lia.
  destruct Hcases as [-> | [-> | [-> | [-> | [-> | ->]]]]];
    evaluate quads_num; evaluate C; lia.
Qed.

Lemma royal_numerators_bounded (b : Z) (cs : list Card) :
  0 <= b <= 5 -> NoDup cs -> Z.of_nat (length cs) = b + 2 ->
  0 <= Zsum (map (fun s => royal_num b (royals s cs)) all_suits)
    <= C (52 - (b + 2)) (5 - b).
Proof.
  intros Hb Hnd Hlen. split.
  - apply Zsum_nonneg, Forall_forall. intros v Hv.
    apply in_map_iff in Hv. destruct Hv as (s & <- & _).
    unfold royal_num. cbv zeta. case_if; [apply C_nonneg | lia].
  - set (vs := map (fun s => royals s cs) all_suits).
    assert (Hvs : Forall (fun v => 0 <= v <= 5) vs).
    { apply Forall_forall. intros v Hv. apply in_map_iff in Hv.
      destruct Hv as (s & <- & _). apply royals_le_5, Hnd. }
    assert (Htotal : Zsum vs <= b + 2).
    { unfold vs. rewrite (map_ext _ _ (fun s => royals_count s cs)).
      etransitivity; [apply Zsum_counts; unfold all_suits; repeat constructor; simpl; lia |].
      rewrite length_map.
      pose proof (filter_length_le (fun c => mem (rank c) royal_ranks) cs). lia. }
    rewrite <- (map_map (fun s => royals s cs) (royal_num b)). fold vs.
    rewrite (histogram (royal_num b) vs Hvs).
    pose proof (histogram (fun v => v) vs Hvs) as Hid. rewrite map_id in Hid.
    pose proof (histogram (fun _ => 1) vs Hvs) as Hone.
    assert (Hlen4 : Zsum (map (fun _ : Z => 1) vs) = 4) by reflexivity.
    rewrite Hlen4 in Hone.
    apply royal_bound; try apply count_nonneg; lia.
Qed.

Lemma quads_numerators_bounded (b : Z) (cs : list Card) :
  0 <= b <= 5 -> NoDup cs -> Forall valid_card cs -> Z.of_nat (length cs) = b + 2 ->
  0 <= Zsum (map (fun r => quads_num b (rank_count r cs)) all_ranks)
    <= C (52 - (b + 2)) (5 - b).
Proof.
  intros Hb Hnd Hvalid Hlen. split.
  - apply Zsum_nonneg, Forall_forall. intros v Hv.
    apply in_map_iff in Hv. destruct Hv as (r & <- & _).
    unfold quads_num. cbv zeta. case_if; [apply C_nonneg | lia].
  - set (vs := map (fun r => rank_count r cs) all_ranks).
    assert (Hvs4 : Forall (fun v => 0 <= v <= 4) vs).
    { apply Forall_forall. intros v Hv. apply in_map_iff in Hv.
      destruct Hv as (r & <- & _). apply rank_count_le_4; assumption. }
    assert (Hvs : Forall (fun v => 0 <= v <= 5) vs).
    { eapply Forall_impl; [| exact Hvs4]. simpl. intros; lia. }
    assert (H5 : count 5 vs = 0).
    { apply count_notin. intros H. rewrite Forall_forall in Hvs4.
      specialize (Hvs4 5 H). lia. }
    assert (Htotal : Zsum vs <= b + 2).
    { unfold vs. rewrite <- (map_ext _ _ (fun r => count_rank r cs)).
      etransitivity; [apply Zsum_counts; unfold all_ranks; repeat constructor; simpl; lia |].
      rewrite length_map. lia. }
    rewrite <- (map_map (fun r => rank_count r cs) (quads_num b)). fold vs.
    rewrite (histogram (quads_num b) vs Hvs).
    pose proof (histogram (fun v => v) vs Hvs) as Hid. rewrite map_id in Hid.
    pose proof (histogram (fun _ => 1) vs Hvs) as Hone.
    assert (Hlen13 : Zsum (map (fun _ : Z => 1) vs) = 13) by reflexivity.
    rewrite Hlen13 in Hone. rewrite H5 in *. rewrite Z.mul_0_r, Z.add_0_r.
    apply quads_bound; try apply count_nonneg; lia.
Qed.

(** C4, as the code has it: on a board of at most five cards and a hole of
    two, all of them cards of the deck and no card twice among board and
    hole, [royal_probability] and [quads_prob] each return a value between 0
    and 1.  Neither constructor looks for a repeated card, and with one the
    value can exceed 1. *)
Theorem probabilities_in_unit_interval (h : store) (board : Hand.t) (hole : HoleCards.t) :
  Hand.in_sync h board -> HoleCards.in_sync h hole ->
  (Hand.len board h <= 5)%nat ->
  length (h (HoleCards.cards hole)) = 2%nat ->
  Forall valid_card (h (Hand.cards board) ++ h (HoleCards.cards hole)) ->
  NoDup (h (Hand.cards board) ++ h (HoleCards.cards hole)) ->
  (exists q, royal_probability h board hole = Ok q /\ (0 <= q <= 1)%Q) /\
  (exists q, quads_prob h board hole = Ok q /\ (0 <= q <= 1)%Q).
Proof.
  intros Hb Hh Hlen Hhole Hvalid Hnd.
  set (b := Z.of_nat (Hand.len board h)).
  assert (Hb5 : 0 <= b <= 5) by (unfold b; lia).
  assert (Hcs : Z.of_nat (length (h (Hand.cards board) ++ h (HoleCards.cards hole)))
                = b + 2).
  { rewrite length_app, Hhole. unfold b, Hand.len. lia. }
  pose proof (C_denominator_pos b Hb5) as HD.
  split.
  - destruct (royal_probability_fraction h board hole Hb Hh Hlen Hhole Hvalid)
      as (q & Hq & Hsum).
    exists q. split; [exact Hq |]. fold b in Hsum. rewrite Hsum.
    apply fraction_bounds; [| exact HD].
    apply royal_numerators_bounded; assumption.
  - destruct (quads_prob_fraction h board hole Hb Hh Hlen Hhole Hvalid)
      as (q & Hq & Hsum).
    exists q. split; [exact Hq |]. fold b in Hsum. rewrite Hsum.
    apply fraction_bounds; [| exact HD].
    apply quads_numerators_bounded; assumption.
Qed.

(** ** The theorems at concrete deals *)

Ltac valid_cards := apply valid_cards_check; vm_compute; reflexivity.

Ltac distinct_cards := apply distinct_check; vm_compute; reflexivity.

Lemma royal_probability_spec_witness :
  exists q,
    royal_probability (deal_store [] ten_jack) (board_of []) (hole_of ten_jack) = Ok q /\
    (q == Qsum (map (fun s => royal_term 0 (royals s ten_jack)) all_suits))%Q.
Proof.
  apply (royal_probability_spec (deal_store [] ten_jack) (board_of []) (hole_of ten_jack)).
  - split; reflexivity.
  - split; reflexivity.
  - vm_compute. lia.
  - reflexivity.
  - valid_cards.
Defined.

Lemma royal_probability_ten_jack_witness :
  exists q,
    royal_probability (deal_store [] ten_jack) (board_of []) (hole_of ten_jack) = Ok q /\
    (q == inject_Z (C 47 2) / inject_Z (C 50 5)
          + 3 * (inject_Z (C 45 0) / inject_Z (C 50 5)))%Q.
Proof.
  apply (royal_probability_ten_jack (deal_store [] ten_jack) (board_of []) (hole_of ten_jack)).
  - split; reflexivity.
  - split; reflexivity.
  - reflexivity.
  - apply Permutation_refl.
Defined.

Lemma quads_prob_three_aces_witness :
  exists q,
    quads_prob (deal_store three_aces seven_nine)
               (board_of three_aces) (hole_of seven_nine) = Ok q /\
    (q == inject_Z (C 45 0) / inject_Z (C 46 1))%Q /\ (q == 1 # 46)%Q.
Proof.
  apply (quads_prob_three_aces (deal_store three_aces seven_nine)
           (board_of three_aces) (hole_of seven_nine)).
  - split; reflexivity.
  - split; reflexivity.
  - reflexivity.
  - reflexivity.
  - valid_cards.
  - reflexivity.
  - intros c Hc. vm_compute in Hc.
    destruct Hc as [<- | [<- | []]]; vm_compute; intuition discriminate.
Defined.

Lemma probabilities_in_unit_interval_witness :
  (exists q, royal_probability (deal_store three_aces seven_nine)
               (board_of three_aces) (hole_of seven_nine) = Ok q /\ (0 <= q <= 1)%Q) /\
  (exists q, quads_prob (deal_store three_aces seven_nine)
               (board_of three_aces) (hole_of seven_nine) = Ok q /\ (0 <= q <= 1)%Q).
Proof.
  apply (probabilities_in_unit_interval (deal_store three_aces seven_nine)
           (board_of three_aces) (hole_of seven_nine)).
  - split; reflexivity.
  - split; reflexivity.
  - vm_compute. lia.
  - reflexivity.
  - valid_cards.
  - distinct_cards.
Defined.

(** Without distinct cards the bound is lost: a hole that repeats an ace of
    the board makes five aces, and [quads_prob] returns 46. *)
Lemma quads_prob_repeated_card :
  exists q,
    quads_prob (deal_store four_aces_king ace_again)
               (board_of four_aces_king) (hole_of ace_again) = Ok q /\
    (q == 46)%Q.
Proof. eexists. split; [vm_compute; reflexivity | reflexivity]. Qed.

(** Boards of five valid cards and holes of two, built by the constructors,
    on which the bound fails: a hole that repeats an ace of the board makes
    [quads_prob] return 46, and seven aces of hearts make [royal_probability]
    return 1081. *)
Lemma probabilities_above_one :
  (Hand.init 0%nat (deal_store four_aces_king ace_again) = Ok (board_of four_aces_king) /\
   HoleCards.init 1%nat (deal_store four_aces_king ace_again) = Ok (hole_of ace_again) /\
   Forall valid_card (four_aces_king ++ ace_again) /\
   exists q,
     quads_prob (deal_store four_aces_king ace_again)
                (board_of four_aces_king) (hole_of ace_again) = Ok q /\
     (q == 46)%Q /\ ~ (0 <= q <= 1)%Q) /\
  (Hand.init 0%nat (deal_store five_aces_of_hearts two_aces_of_hearts)
     = Ok (board_of five_aces_of_hearts) /\
   HoleCards.init 1%nat (deal_store five_aces_of_hearts two_aces_of_hearts)
     = Ok (hole_of two_aces_of_hearts) /\
   Forall valid_card (five_aces_of_hearts ++ two_aces_of_hearts) /\
   exists q,
     royal_probability (deal_store five_aces_of_hearts two_aces_of_hearts)
                       (board_of five_aces_of_hearts) (hole_of two_aces_of_hearts) = Ok q /\
     (q == 1081)%Q /\ ~ (0 <= q <= 1)%Q).
Proof.
  split.
  - split; [reflexivity |]. split; [reflexivity |]. split; [valid_cards |].
    eexists. split; [vm_compute; reflexivity |]. split; [reflexivity |].
    intros [_ H]. vm_compute in H. apply H. reflexivity.
  - split; [reflexivity |]. split; [reflexivity |]. split; [valid_cards |].
    eexists. split; [vm_compute; reflexivity |]. split; [reflexivity |].
    intros [_ H]. vm_compute in H. apply H. reflexivity.
Qed.

Lemma hand_rank_flush_witness :
  hand_rank (board_of royal_flush_cards) = Ok 1.
Proof.
  apply (hand_rank_flush (deal_store royal_flush_cards []) (board_of royal_flush_cards) hearts).
  - split; reflexivity.
  - reflexivity.
  - intros c Hc. vm_compute in Hc.
    destruct Hc as [<- | [<- | [<- | [<- | [<- | []]]]]]; reflexivity.
  - reflexivity.
Defined.

(** The ace-low straight in mixed suits is a straight. *)
Lemma hand_rank_straight_witness :
  hand_rank (board_of wheel_cards) = Ok 6.
Proof.
  apply (hand_rank_straight (deal_store wheel_cards []) (board_of wheel_cards)
           (mkCard hearts ace) (mkCard diamonds 2)).
  - split; reflexivity.
  - reflexivity.
  - vm_compute. auto.
  - vm_compute. auto.
  - vm_compute. discriminate.
  - vm_compute. repeat (constructor; [simpl; intuition discriminate |]). constructor.
  - left. exists 1. reflexivity.
Defined.

Lemma hand_rank_any_length_witness :
  exists code, hand_rank shared_hand = Ok code /\ 1 <= code <= 10.
Proof.
  apply (hand_rank_any_length shared_store shared_hand).
  - split; reflexivity.
  - simpl. discriminate.
Defined.

(** A hand of one card is not rejected: it is ranked a flush. *)
Lemma hand_rank_one_card :
  Hand.init 0%nat shared_store = Ok shared_hand /\
  Hand.len shared_hand shared_store = 1%nat /\
  hand_rank shared_hand = Ok 5.
Proof. repeat split. Qed.

Lemma size_errors_witness :
  HoleCards.init 0%nat (deal_store three_aces seven_nine) = Raise ValueError /\
  Hand.add_card (mkCard clubs 2) (board_of royal_flush_cards, deal_store royal_flush_cards [])
    = (Raise ValueError, (board_of royal_flush_cards, deal_store royal_flush_cards [])) /\
  exists st, Hand.add_card (mkCard clubs 2)
               (board_of three_aces, deal_store three_aces seven_nine) = (Ok tt, st).
Proof.
  split; [| split].
  - apply (size_errors (deal_store three_aces seven_nine) 0%nat (mkCard clubs 2)
             (board_of three_aces)).
    simpl. discriminate.
  - apply (size_errors (deal_store royal_flush_cards []) 0%nat (mkCard clubs 2)
             (board_of royal_flush_cards)).
    reflexivity.
  - apply (size_errors (deal_store three_aces seven_nine) 0%nat (mkCard clubs 2)
             (board_of three_aces)).
    vm_compute. lia.
Defined.

Lemma sync_preserved_witness :
  Hand.in_sync
    (store_set shared_store 0%nat [mkCard hearts ace; mkCard hearts king])
    (Hand.mk 0%nat [ace; king] [hearts; hearts]).
Proof.
  apply (sync_preserved shared_store 0%nat (mkCard hearts king) shared_hand).
  - split; reflexivity.
  - reflexivity.
Defined.

(** Two hands built on one list: after [add_card] on the first and then on
    the second, both successful, the second holds three cards and two ranks. *)
Lemma sync_lost_by_sharing :
  Hand.init 0%nat shared_store = Ok shared_hand /\
  let st1 := Hand.add_card (mkCard hearts king) (shared_hand, shared_store) in
  fst st1 = Ok tt /\
  let st2 := Hand.add_card (mkCard hearts queen) (shared_hand, snd (snd st1)) in
  fst st2 = Ok tt /\
  let hand := fst (snd st2) in
  let h := snd (snd st2) in
  h (Hand.cards hand) = [mkCard hearts ace; mkCard hearts king; mkCard hearts queen] /\
  Hand.ranks hand = [ace; queen] /\
  Hand.suits hand = [hearts; hearts] /\
  ~ mirrors (h (Hand.cards hand)) (Hand.ranks hand) (Hand.suits hand).
Proof.
  repeat split.
  intros [H _]. discriminate H.
Qed.

(** The constructor takes six cards; [add_card] then still succeeds, its
    test being on a length of exactly five. *)
Lemma Hand_init_six_cards :
  Hand.init 0%nat (deal_store six_cards []) = Ok (board_of six_cards) /\
  Hand.len (board_of six_cards) (deal_store six_cards []) = 6%nat /\
  Hand.add_card (mkCard hearts 8) (board_of six_cards, deal_store six_cards [])
    = (Ok tt,
       (board_of (six_cards ++ [mkCard hearts 8]),
        store_set (deal_store six_cards []) 0%nat (six_cards ++ [mkCard hearts 8]))).
Proof. repeat split. Qed.

(** The classifier on the hands listed in the spec. *)
Lemma hand_rank_examples :
  hand_rank (board_of royal_flush_cards) = Ok 1 /\
  hand_rank (board_of [mkCard clubs 5; mkCard clubs 6; mkCard clubs 7;
                       mkCard clubs 8; mkCard clubs 9]) = Ok 2 /\
  hand_rank (board_of [mkCard hearts ace; mkCard diamonds ace; mkCard spades ace;
                       mkCard clubs ace; mkCard hearts 5]) = Ok 3 /\
  hand_rank (board_of [mkCard hearts 2; mkCard diamonds 2; mkCard spades 2;
                       mkCard clubs 7; mkCard hearts 7]) = Ok 4 /\
  hand_rank (board_of [mkCard hearts 2; mkCard hearts 5; mkCard hearts 9;
                       mkCard hearts jack; mkCard hearts king]) = Ok 5 /\
  hand_rank (board_of [mkCard hearts 2; mkCard diamonds 3; mkCard spades 4;
                       mkCard clubs 5; mkCard hearts 6]) = Ok 6.
Proof. repeat split. Qed.

(** * Further properties *)

(** ** Multiplicities of ranks *)

Lemma insert_insert (x y : Z) (l : list Z) :
  insert x (insert y l) = insert y (insert x l).
Proof.
  induction l as [| z l IH]; simpl.
  - destruct (x <=? y) eqn:E1, (y <=? x) eqn:E2; try reflexivity; try lia.
    assert (x = y) by lia. subst. reflexivity.
  - destruct (x <=? z) eqn:Exz, (y <=? z) eqn:Eyz; simpl;
      rewrite ?Exz, ?Eyz;
      destruct (x <=? y) eqn:Exy, (y <=? x) eqn:Eyx; simpl; rewrite ?Exz, ?Eyz;
      try reflexivity; try lia; try (rewrite IH; reflexivity).
    assert (x = y) by lia. subst. reflexivity.
Qed.

(** [sorted] depends on the elements only, not on their order. *)
Lemma sorted_Permutation_eq (l l' : list Z) :
  Permutation l l' -> sorted l = sorted l'.
Proof.
  induction 1 as [| x l l' _ IH | x y l | l l' l'' _ IH1 _ IH2]; simpl.
  - reflexivity.
  - rewrite IH. reflexivity.
  - apply insert_insert.
  - congruence.
Qed.

Lemma nodup_Permutation (l l' : list Z) :
  Permutation l l' -> Permutation (nodup Z.eq_dec l) (nodup Z.eq_dec l').
Proof.
  intros H. apply NoDup_Permutation; try apply NoDup_nodup.
  intros x. rewrite !nodup_In. split; apply Permutation_in; [| symmetry]; exact H.
Qed.

Lemma set_len_Permutation (l l' : list Z) :
  Permutation l l' -> set_len l = set_len l'.
Proof. intros H. apply Permutation_length, nodup_Permutation, H. Qed.

Lemma count_Permutation (v : Z) (l l' : list Z) :
  Permutation l l' -> count v l = count v l'.
Proof.
  intros H. unfold count. f_equal.
  apply (proj1 (Permutation_count_occ Z.eq_dec l l') H).
Qed.

Lemma multiplicities_Permutation (l l' : list Z) :
  Permutation l l' -> multiplicities l = multiplicities l'.
Proof.
  intros H. unfold multiplicities. apply sorted_Permutation_eq.
  rewrite (map_ext _ _ (fun v => count_Permutation v l l' H)).
  apply Permutation_map, nodup_Permutation, H.
Qed.

Lemma multiplicities_length (l : list Z) : length (multiplicities l) = set_len l.
Proof. unfold multiplicities, set_len. rewrite sorted_length, length_map. reflexivity. Qed.

Lemma multiplicities_In (m : Z) (l : list Z) :
  In m (multiplicities l) <-> exists v, In v l /\ count v l = m.
Proof.
  unfold multiplicities. split.
  - intros H. apply (Permutation_in _ (Permutation_sym (sorted_Permutation _))) in H.
    apply in_map_iff in H. destruct H as (v & Hv & Hin).
    exists v. split; [apply (nodup_In Z.eq_dec), Hin | exact Hv].
  - intros (v & Hin & Hv).
    apply (Permutation_in _ (sorted_Permutation _)).
    apply in_map_iff. exists v. split; [exact Hv | apply nodup_In, Hin].
Qed.

Lemma count_pos (v : Z) (l : list Z) : In v l -> 1 <= count v l.
Proof.
  intros H. unfold count. apply (count_occ_In Z.eq_dec) in H. lia.
Qed.

Lemma multiplicities_nonempty (l : list Z) : multiplicities l <> [] -> l <> [].
Proof. intros H ->. apply H. reflexivity. Qed.

Lemma first_multiplicity (r0 : Z) (l : list Z) :
  index l 0 = Ok r0 -> In (count r0 l) (multiplicities l).
Proof.
  destruct l as [| x l]; [discriminate |]. intros H. injection H as ->.
  apply multiplicities_In. exists r0. split; [left; reflexivity | reflexivity].
Qed.

Lemma suits_not_flush (s1 s2 : Z) (suits : list Z) :
  In s1 suits -> In s2 suits -> s1 <> s2 -> Nat.eqb (set_len suits) 1 = false.
Proof.
  intros H1 H2 Hne. apply Nat.eqb_neq.
  pose proof (set_len_two s1 s2 suits H1 H2 Hne). lia.
Qed.

(** X1: Four of a kind and full house: with cards of two suits at least and two
    distinct ranks, [hand_rank] returns 3 when the ranks occur once and four
    times, and 4 when they occur twice and three times. *)
Theorem hand_rank_two_ranks (hand : Hand.t) (s1 s2 : Z) :
  In s1 (Hand.suits hand) -> In s2 (Hand.suits hand) -> s1 <> s2 ->
  (multiplicities (Hand.ranks hand) = [1; 4] -> hand_rank hand = Ok 3) /\
  (multiplicities (Hand.ranks hand) = [2; 3] -> hand_rank hand = Ok 4).
Proof.
  intros H1 H2 Hne.
  pose proof (suits_not_flush s1 s2 _ H1 H2 Hne) as Hflush.
  assert (Hbranch : forall M, multiplicities (Hand.ranks hand) = M ->
            length M = 2%nat ->
            exists r0, In (count r0 (Hand.ranks hand)) M /\
              hand_rank hand =
              if mem (count r0 (Hand.ranks hand)) [1; 4] then Ok 3 else Ok 4).
  { intros M HM Hlen.
    assert (Hset : set_len (Hand.ranks hand) = 2%nat).
    { rewrite <- multiplicities_length, HM. exact Hlen. }
    destruct (Hand.ranks hand) as [| r0 rs] eqn:E; [subst M; discriminate |].
    exists r0. split.
    - rewrite <- HM. apply first_multiplicity. reflexivity.
    - unfold hand_rank. rewrite Hflush, E, Hset. reflexivity. }
  split; intros HM.
  - destruct (Hbranch _ HM eq_refl) as (r0 & Hin & ->).
    destruct Hin as [<- | [<- | []]]; reflexivity.
  - destruct (Hbranch _ HM eq_refl) as (r0 & Hin & ->).
    destruct Hin as [<- | [<- | []]]; reflexivity.
Qed.

(** X2: Two pair and three of a kind: with cards of two suits at least and three
    distinct ranks, [hand_rank] returns 8 when some rank occurs exactly twice
    (multiplicities 1, 2, 2) and 7 when none does (multiplicities 1, 1, 3). *)
Theorem hand_rank_three_ranks (hand : Hand.t) (s1 s2 : Z) :
  In s1 (Hand.suits hand) -> In s2 (Hand.suits hand) -> s1 <> s2 ->
  (multiplicities (Hand.ranks hand) = [1; 2; 2] -> hand_rank hand = Ok 8) /\
  (multiplicities (Hand.ranks hand) = [1; 1; 3] -> hand_rank hand = Ok 7).
Proof.
  intros H1 H2 Hne.
  pose proof (suits_not_flush s1 s2 _ H1 H2 Hne) as Hflush.
  assert (Hbranch : forall M, multiplicities (Hand.ranks hand) = M ->
            length M = 3%nat ->
            hand_rank hand =
            if existsb (fun rank => count rank (Hand.ranks hand) =? 2) (Hand.ranks hand)
            then Ok 8 else Ok 7).
  { intros M HM Hlen.
    assert (Hset : set_len (Hand.ranks hand) = 3%nat).
    { rewrite <- multiplicities_length, HM. exact Hlen. }
    unfold hand_rank. rewrite Hflush, Hset. reflexivity. }
  split; intros HM; rewrite (Hbranch _ HM eq_refl).
  - assert (H : In 2 (multiplicities (Hand.ranks hand))) by (rewrite HM; simpl; auto).
    apply multiplicities_In in H. destruct H as (v & Hv & Hc).
    assert (E : existsb (fun rank => count rank (Hand.ranks hand) =? 2) (Hand.ranks hand) = true).
    { apply existsb_exists. exists v. split; [exact Hv | apply Z.eqb_eq, Hc]. }
    rewrite E. reflexivity.
  - assert (E : existsb (fun rank => count rank (Hand.ranks hand) =? 2) (Hand.ranks hand) = false).
    { destruct (existsb _ _) eqn:E; [| reflexivity].
      apply existsb_exists in E. destruct E as (v & Hv & Hc). apply Z.eqb_eq in Hc.
      assert (H : In 2 (multiplicities (Hand.ranks hand))).
      { apply multiplicities_In. exists v. auto. }
      rewrite HM in H. simpl in H. lia. }
    rewrite E. reflexivity.
Qed.

(** X3: One pair: with cards of two suits at least and four distinct ranks, one
    of them twice, [hand_rank] returns 9. *)
Theorem hand_rank_pair (hand : Hand.t) (s1 s2 : Z) :
  In s1 (Hand.suits hand) -> In s2 (Hand.suits hand) -> s1 <> s2 ->
  multiplicities (Hand.ranks hand) = [1; 1; 1; 2] ->
  hand_rank hand = Ok 9.
Proof.
  intros H1 H2 Hne HM.
  pose proof (suits_not_flush s1 s2 _ H1 H2 Hne) as Hflush.
  assert (Hset : set_len (Hand.ranks hand) = 4%nat).
  { rewrite <- multiplicities_length, HM. reflexivity. }
  unfold hand_rank. rewrite Hflush, Hset. reflexivity.
Qed.

Lemma Zsum_indicator_in (x : Z) (keys : list Z) :
  NoDup keys -> In x keys ->
  Zsum (map (fun k => if k =? x then 1 else 0) keys) = 1.
Proof.
  induction 1 as [| k keys Hnotin Hnd IH]; simpl; [tauto |].
  intros [-> | Hin].
  - rewrite Z.eqb_refl.
    enough (Zsum (map (fun k => if k =? x then 1 else 0) keys) = 0) by lia.
    clear IH Hnd. induction keys as [| k keys IH]; simpl; [reflexivity |].
    destruct (k =? x) eqn:E.
    + apply Z.eqb_eq in E. subst k. exfalso. apply Hnotin. left; reflexivity.
    + rewrite IH; [reflexivity |]. intros H. apply Hnotin. right; exact H.
  - destruct (k =? x) eqn:E.
    + apply Z.eqb_eq in E. subst k. contradiction.
    + rewrite IH by exact Hin. reflexivity.
Qed.

Lemma Zsum_indicator_notin (x : Z) (keys : list Z) :
  ~ In x keys -> Zsum (map (fun k => if k =? x then 1 else 0) keys) = 0.
Proof.
  induction keys as [| k keys IH]; simpl; [reflexivity |]. intros Hnotin.
  destruct (k =? x) eqn:E.
  - apply Z.eqb_eq in E. subst k. exfalso. apply Hnotin. left; reflexivity.
  - rewrite IH; [reflexivity |]. intros H. apply Hnotin. right; exact H.
Qed.

(** The occurrences of the distinct values add up to the length. *)
Lemma Zsum_distinct_counts (l : list Z) :
  Zsum (map (fun v => count v l) (nodup Z.eq_dec l)) = Z.of_nat (length l).
Proof.
  induction l as [| x l IH]; [reflexivity |].
  assert (Hcons : forall keys,
    Zsum (map (fun v => count v (x :: l)) keys)
    = Zsum (map (fun k => if k =? x then 1 else 0) keys)
      + Zsum (map (fun v => count v l) keys)).
  { intros keys. rewrite <- Zsum_map_add. f_equal. apply map_ext.
    intros v. apply count_cons. }
  cbn [nodup]. destruct (in_dec Z.eq_dec x l) as [Hin | Hnotin].
  - rewrite Hcons, IH, Zsum_indicator_in;
      [simpl length; lia | apply NoDup_nodup | apply nodup_In, Hin].
  - cbn [map Zsum fold_right]. fold (Zsum (map (fun v => count v (x :: l)) (nodup Z.eq_dec l))).
    rewrite Hcons, IH, Zsum_indicator_notin by (rewrite nodup_In; exact Hnotin).
    rewrite count_cons, Z.eqb_refl, (count_notin x l Hnotin). simpl length. lia.
Qed.

Lemma Zsum_Permutation (l l' : list Z) : Permutation l l' -> Zsum l = Zsum l'.
Proof. induction 1; simpl in *; lia. Qed.

Lemma multiplicities_sum (l : list Z) :
  Zsum (multiplicities l) = Z.of_nat (length l).
Proof.
  unfold multiplicities.
  rewrite <- (Zsum_Permutation _ _ (sorted_Permutation _)).
  apply Zsum_distinct_counts.
Qed.

Lemma multiplicities_pos (m : Z) (l : list Z) : In m (multiplicities l) -> 1 <= m.
Proof.
  intros H. apply multiplicities_In in H. destruct H as (v & Hv & <-).
  apply count_pos, Hv.
Qed.

(** Five cards of two ranks: four and one, or three and two. *)
Lemma two_ranks_of_five (l : list Z) :
  length l = 5%nat -> set_len l = 2%nat ->
  multiplicities l = [1; 4] \/ multiplicities l = [2; 3].
Proof.
  intros Hlen Hset.
  pose proof (multiplicities_length l) as HL. rewrite Hset in HL.
  pose proof (multiplicities_sum l) as HS. rewrite Hlen in HS.
  pose proof (multiplicities_pos) as Hpos. specialize (fun m => Hpos m l).
  assert (Hsorted : Sorted Z.le (multiplicities l)) by apply sorted_Sorted.
  destruct (multiplicities l) as [| a [| b [| ? ?]]]; try discriminate.
  pose proof (Hpos a (or_introl eq_refl)) as Ha.
  pose proof (Hpos b (or_intror (or_introl eq_refl))) as Hb.
  apply Sorted_inv in Hsorted. destruct Hsorted as [_ Hab].
  apply HdRel_inv in Hab. simpl in HS.
  assert (a = 1 /\ b = 4 \/ a = 2 /\ b = 3) as [[-> ->] | [-> ->]] by lia; auto.
Qed.

Lemma two_ranks_by_multiplicities (l : list Z) :
  length l = 5%nat -> set_len l = 2%nat ->
  (r0 <- index l 0 ;; if mem (count r0 l) [1; 4] then Ok 3 else Ok 4)
  = if Zlist_eqb (multiplicities l) [1; 4] then Ok 3 else Ok 4.
Proof.
  intros Hlen Hset.
  destruct l as [| r0 rs] eqn:E; [discriminate |]. rewrite <- E in *.
  assert (H0 : index l 0 = Ok r0) by (rewrite E; reflexivity).
  rewrite H0. cbn [bind].
  pose proof (first_multiplicity r0 l H0) as Hin.
  destruct (two_ranks_of_five l Hlen Hset) as [HM | HM]; rewrite HM in *;
    destruct Hin as [<- | [<- | []]]; reflexivity.
Qed.

Lemma existsb_Permutation {A : Type} (f : A -> bool) (l l' : list A) :
  Permutation l l' -> existsb f l = existsb f l'.
Proof.
  induction 1 as [| x l l' _ IH | x y l | l l' l'' _ IH1 _ IH2]; simpl.
  - reflexivity.
  - rewrite IH. reflexivity.
  - destruct (f x), (f y); reflexivity.
  - congruence.
Qed.

Lemma existsb_pointwise {A : Type} (f g : A -> bool) (l : list A) :
  (forall x, f x = g x) -> existsb f l = existsb g l.
Proof.
  intros H. induction l as [| x l IH]; simpl; [reflexivity |].
  rewrite H, IH. reflexivity.
Qed.

(** X4: The category of five cards does not depend on the order in which the
    hand holds them. *)
Theorem hand_rank_order (h h' : store) (hand hand' : Hand.t) :
  Hand.in_sync h hand -> Hand.in_sync h' hand' ->
  Permutation (h (Hand.cards hand)) (h' (Hand.cards hand')) ->
  Hand.len hand h = 5%nat ->
  hand_rank hand = hand_rank hand'.
Proof.
  intros [Hr Hs] [Hr' Hs'] Hperm Hlen.
  assert (HR : Permutation (Hand.ranks hand) (Hand.ranks hand')).
  { rewrite Hr, Hr'. apply Permutation_map, Hperm. }
  assert (HS : Permutation (Hand.suits hand) (Hand.suits hand')).
  { rewrite Hs, Hs'. apply Permutation_map, Hperm. }
  assert (Hlen5 : length (Hand.ranks hand) = 5%nat).
  { rewrite Hr, length_map. exact Hlen. }
  assert (Hlen5' : length (Hand.ranks hand') = 5%nat).
  { rewrite <- (Permutation_length HR). exact Hlen5. }
  unfold hand_rank.
  rewrite <- (set_len_Permutation _ _ HS), <- (set_len_Permutation _ _ HR),
          <- (sorted_Permutation_eq _ _ HR).
  destruct (Nat.eqb (set_len (Hand.suits hand)) 1); [reflexivity |].
  destruct (Nat.eqb (set_len (Hand.ranks hand)) 2) eqn:E2.
  - apply Nat.eqb_eq in E2.
    rewrite (two_ranks_by_multiplicities _ Hlen5 E2).
    rewrite (two_ranks_by_multiplicities _ Hlen5')
      by (rewrite <- (set_len_Permutation _ _ HR); exact E2).
    rewrite (multiplicities_Permutation _ _ HR). reflexivity.
  - destruct (Nat.eqb (set_len (Hand.ranks hand)) 3); [| reflexivity].
    rewrite (existsb_Permutation _ _ _ HR).
    rewrite (existsb_pointwise _ (fun rank => count rank (Hand.ranks hand') =? 2));
      [reflexivity |].
    intros r. rewrite (count_Permutation r _ _ HR). reflexivity.
Qed.

(** For other lengths the order matters: the test for four of a kind looks
    at the rank of the first card. *)
Lemma hand_rank_order_three_cards :
  hand_rank (board_of [mkCard hearts ace; mkCard diamonds ace; mkCard spades king]) = Ok 4 /\
  hand_rank (board_of [mkCard spades king; mkCard hearts ace; mkCard diamonds ace]) = Ok 3.
Proof. split; reflexivity. Qed.

(** ** Growing a hand *)

Lemma in_sync_init (h : store) (self : Hand.t) :
  Hand.in_sync h self -> Hand.init (Hand.cards self) h = Ok self.
Proof.
  destruct self as [r rs ss]. unfold Hand.in_sync, Hand.init. simpl.
  intros [-> ->]. reflexivity.
Qed.

(** X5: Adding cards one by one to a hand of at most five cards: the cards are
    appended up to the fifth, the other lists are untouched, the hand is the
    one the constructor builds on the final list, and [ValueError] is raised
    exactly when the cards do not all fit. *)
Theorem add_cards_cap (cs : list Card) (h : store) (self : Hand.t) :
  Hand.in_sync h self ->
  (Hand.len self h <= 5)%nat ->
  exists self' h',
    snd (add_cards cs (self, h)) = (self', h') /\
    h' (Hand.cards self) = h (Hand.cards self) ++ firstn (5 - Hand.len self h) cs /\
    (forall r, r <> Hand.cards self -> h' r = h r) /\
    Hand.init (Hand.cards self) h' = Ok self' /\
    fst (add_cards cs (self, h)) =
      if (length cs <=? 5 - Hand.len self h)%nat then Ok tt else Raise ValueError.
Proof.
  revert h self. induction cs as [| c cs IH]; intros h self Hsync Hlen.
  - exists self, h. simpl. rewrite firstn_nil, app_nil_r.
    repeat split; auto using in_sync_init.
  - cbn [add_cards]. unfold Hand.len in *.
    destruct (Hand.add_card c (self, h)) as [res st1] eqn:Hadd.
    unfold Hand.add_card in Hadd.
    destruct (Nat.eqb (length (h (Hand.cards self))) 5) eqn:E.
    + apply Nat.eqb_eq in E. injection Hadd as <- <-.
      exists self, h. rewrite E. simpl. rewrite app_nil_r.
      repeat split; auto using in_sync_init.
    + apply Nat.eqb_neq in E. injection Hadd as <- <-.
      set (self1 := Hand.mk (Hand.cards self) (Hand.ranks self ++ [rank c])
                            (Hand.suits self ++ [suit c])).
      set (h1 := store_set h (Hand.cards self) (h (Hand.cards self) ++ [c])).
      assert (Hsync1 : Hand.in_sync h1 self1).
      { destruct Hsync as [Hr Hs]. unfold Hand.in_sync, self1, h1. simpl.
        rewrite store_set_same, !map_app, Hr, Hs. split; reflexivity. }
      assert (Hh1 : h1 (Hand.cards self1) = h (Hand.cards self) ++ [c]).
      { unfold h1, self1. simpl. apply store_set_same. }
      destruct (IH h1 self1 Hsync1) as (self' & h' & Hsnd & Hcards & Hframe & Hinit & Hfst).
      { rewrite Hh1, length_app. simpl. lia. }
      exists self', h'. rewrite Hh1 in *. change (Hand.cards self1) with (Hand.cards self) in *.
      rewrite length_app in Hcards, Hfst. simpl length in Hcards, Hfst.
      split; [exact Hsnd |]. split; [| split; [| split]].
      * rewrite Hcards, <- app_assoc. f_equal.
        replace (5 - length (h (Hand.cards self)))%nat
          with (S (5 - (length (h (Hand.cards self)) + 1)))%nat by lia.
        reflexivity.
      * intros r Hr. rewrite (Hframe r Hr). unfold h1. apply store_set_other, Hr.
      * exact Hinit.
      * rewrite Hfst. simpl length.
        destruct (length cs <=? 5 - (length (h (Hand.cards self)) + 1))%nat eqn:E1,
                 (S (length cs) <=? 5 - length (h (Hand.cards self)))%nat eqn:E2;
          try reflexivity.
        -- apply Nat.leb_le in E1. apply Nat.leb_gt in E2. lia.
        -- apply Nat.leb_gt in E1. apply Nat.leb_le in E2. lia.
Qed.

(** ** The estimators beyond legal deals *)

Lemma bind_assoc {A B D : Type} (m : result A) (f : A -> result B) (g : B -> result D) :
  bind (bind m f) g = bind m (fun a => bind (f a) g).
Proof. destruct m; reflexivity. Qed.

(** The two counting loops are one loop over the cards of the board followed
    by those of the hole. *)
Lemma royal_probability_loops (h : store) (board : Hand.t) (hole : HoleCards.t) :
  Hand.in_sync h board -> HoleCards.in_sync h hole ->
  length (h (HoleCards.cards hole)) = 2%nat ->
  let b := Z.of_nat (Hand.len board h) in
  let cs := h (Hand.cards board) ++ h (HoleCards.cards hole) in
  royal_probability h board hole =
  (d <- for_each (map suit (filter (fun c => mem (rank c) royal_ranks) cs))
                 (fun k d' => dict_incr d' k) (map (fun k => (k, 0)) all_suits) ;;
   for_each (dict_values d)
     (outs_body (fun v => v >=? b) (fun v => 52 - (b + 2 + 5 - v))
                (fun v => 5 - b - (5 - v)) (52 - (b + 2)) (5 - b)) 0%Q).
Proof.
  destruct board as [bc br bs], hole as [hc hr hs].
  unfold Hand.in_sync, HoleCards.in_sync, Hand.len.
  cbn [Hand.cards Hand.ranks Hand.suits HoleCards.cards HoleCards.ranks HoleCards.suits].
  intros [-> ->] [-> ->] Hhole.
  unfold royal_probability, Hand.len.
  cbn [Hand.cards Hand.ranks Hand.suits HoleCards.ranks HoleCards.suits].
  rewrite <- Hhole.
  rewrite filter_app, map_app, for_each_app, bind_assoc, royal_loop.
  destruct (for_each _ _ _) as [d1 | e]; [| reflexivity]. cbn [bind].
  rewrite royal_loop. reflexivity.
Qed.

Lemma quads_prob_loops (h : store) (board : Hand.t) (hole : HoleCards.t) :
  Hand.in_sync h board -> HoleCards.in_sync h hole ->
  length (h (HoleCards.cards hole)) = 2%nat ->
  let b := Z.of_nat (Hand.len board h) in
  let cs := h (Hand.cards board) ++ h (HoleCards.cards hole) in
  quads_prob h board hole =
  (d <- for_each (map rank cs) (fun k d' => dict_incr d' k)
                 (map (fun k => (k, 0)) all_ranks) ;;
   for_each (dict_values d)
     (outs_body (fun v => 4 - v <=? 5 - b) (fun v => 52 - (b + 2 + 4 - v))
                (fun v => 5 - b - (4 - v)) (52 - (b + 2)) (5 - b)) 0%Q).
Proof.
  destruct board as [bc br bs], hole as [hc hr hs].
  unfold Hand.in_sync, HoleCards.in_sync, Hand.len.
  cbn [Hand.cards Hand.ranks Hand.suits HoleCards.cards HoleCards.ranks HoleCards.suits].
  intros [-> ->] [-> ->] Hhole.
  unfold quads_prob, Hand.len.
  cbn [Hand.cards Hand.ranks Hand.suits HoleCards.ranks HoleCards.suits].
  rewrite <- Hhole.
  rewrite map_app, for_each_app, bind_assoc, quads_loop.
  destruct (for_each _ _ _) as [d1 | e]; [| reflexivity]. cbn [bind].
  rewrite quads_loop. reflexivity.
Qed.

(** *** A missing key *)

Lemma dict_get_missing (d : dict) (k : Z) :
  ~ In k (map fst d) -> dict_incr d k = Raise KeyError.
Proof.
  unfold dict_incr. induction d as [| [k' v] d IH]; simpl; [reflexivity |].
  intros Hnotin. destruct (k' =? k) eqn:E.
  - apply Z.eqb_eq in E. exfalso. apply Hnotin. left; exact E.
  - assert (Hd : dict_get d k = Raise KeyError).
    { destruct (dict_get d k) eqn:G; simpl in IH.
      - specialize (IH (fun H => Hnotin (or_intror H))). discriminate.
      - specialize (IH (fun H => Hnotin (or_intror H))). congruence. }
    rewrite Hd. reflexivity.
Qed.

Lemma for_each_dict_incr_missing (ks : list Z) (d : dict) (k : Z) :
  NoDup (map fst d) -> In k ks -> ~ In k (map fst d) ->
  for_each ks (fun k d' => dict_incr d' k) d = Raise KeyError.
Proof.
  revert d. induction ks as [| x ks IH]; intros d Hnd Hin Hnotin; [contradiction |].
  simpl. destruct (in_dec Z.eq_dec x (map fst d)) as [Hx | Hx].
  - rewrite dict_incr_map by assumption. cbn [bind].
    assert (Hfst : map fst (map (fun p => (fst p, if fst p =? x then snd p + 1 else snd p)) d)
                   = map fst d) by (rewrite map_map; reflexivity).
    destruct Hin as [-> | Hin]; [contradiction |].
    apply IH; rewrite ?Hfst; assumption.
  - rewrite dict_get_missing by exact Hx. reflexivity.
Qed.

Lemma NoDup_all_suits : NoDup (map fst (map (fun k : Z => (k, 0)) all_suits)).
Proof. repeat constructor; simpl; lia. Qed.

Lemma NoDup_all_ranks : NoDup (map fst (map (fun k : Z => (k, 0)) all_ranks)).
Proof. repeat constructor; simpl; lia. Qed.

(** X6: A card whose rank is not one of the thirteen keys makes [quads_prob]
    raise [KeyError], whatever the length of the board. *)
Theorem quads_prob_KeyError (h : store) (board : Hand.t) (hole : HoleCards.t) (c : Card) :
  Hand.in_sync h board -> HoleCards.in_sync h hole ->
  length (h (HoleCards.cards hole)) = 2%nat ->
  In c (h (Hand.cards board) ++ h (HoleCards.cards hole)) ->
  ~ 1 <= rank c <= 13 ->
  quads_prob h board hole = Raise KeyError.
Proof.
  intros Hb Hh Hhole Hc Hrank.
  rewrite (quads_prob_loops h board hole Hb Hh Hhole).
  rewrite (for_each_dict_incr_missing _ _ (rank c)); [reflexivity | | |].
  - exact NoDup_all_ranks.
  - apply in_map, Hc.
  - simpl. lia.
Qed.

(** X7: A card of royal rank whose suit is not one of the four keys makes
    [royal_probability] raise [KeyError]. *)
Theorem royal_probability_KeyError (h : store) (board : Hand.t) (hole : HoleCards.t)
    (c : Card) :
  Hand.in_sync h board -> HoleCards.in_sync h hole ->
  length (h (HoleCards.cards hole)) = 2%nat ->
  In c (h (Hand.cards board) ++ h (HoleCards.cards hole)) ->
  In (rank c) [1; 10; 11; 12; 13] ->
  ~ 1 <= suit c <= 4 ->
  royal_probability h board hole = Raise KeyError.
Proof.
  intros Hb Hh Hhole Hc Hroyal Hsuit.
  rewrite (royal_probability_loops h board hole Hb Hh Hhole).
  rewrite (for_each_dict_incr_missing _ _ (suit c)); [reflexivity | | |].
  - exact NoDup_all_suits.
  - apply in_map, filter_In. split; [exact Hc |].
    unfold mem. apply existsb_exists. exists (rank c).
    split; [exact Hroyal | apply Z.eqb_refl].
  - simpl. lia.
Qed.

(** *** No division by zero *)

Lemma bind_not_raise {A B : Type} (e : exn) (m : result A) (f : A -> result B) :
  m <> Raise e -> (forall a, m = Ok a -> f a <> Raise e) -> bind m f <> Raise e.
Proof.
  intros Hm Hf. destruct m as [a | e']; simpl; [apply Hf; reflexivity |].
  intros H. apply Hm. injection H as ->. reflexivity.
Qed.

Lemma for_each_not_raise {A S : Type} (e : exn) (xs : list A)
      (body : A -> S -> result S) (s : S) :
  (forall x s', body x s' <> Raise e) -> for_each xs body s <> Raise e.
Proof.
  intros Hbody. revert s. induction xs as [| x xs IH]; intros s; simpl; [discriminate |].
  apply bind_not_raise; [apply Hbody | intros; apply IH].
Qed.

Lemma index_IndexError {A : Type} (l : list A) (i : nat) (e : exn) :
  index l i = Raise e -> e = IndexError.
Proof. unfold index. destruct (nth_error l i); [discriminate | congruence]. Qed.

Lemma dict_incr_KeyError (d : dict) (k : Z) (e : exn) :
  dict_incr d k = Raise e -> e = KeyError.
Proof.
  unfold dict_incr.
  assert (H : forall e', dict_get d k = Raise e' -> e' = KeyError).
  { induction d as [| [k' v] d IH]; simpl; [congruence |].
    destruct (k' =? k); [discriminate | exact IH]. }
  destruct (dict_get d k) eqn:G; simpl; [discriminate |].
  intros E. injection E as <-. apply H. reflexivity.
Qed.

Lemma comb_ValueError (n k : Z) (e : exn) : comb n k = Raise e -> e = ValueError.
Proof. unfold comb. case_if; [congruence | discriminate]. Qed.

(** When the denominator [comb(52 - (board_len+2), 5 - board_len)] is
    computed at all, it is not zero. *)
Lemma denominator_nonzero (board_len : nat) (d : Z) :
  comb (52 - (Z.of_nat board_len + 2)) (5 - Z.of_nat board_len) = Ok d -> d <> 0.
Proof.
  intros H.
  destruct (Z_lt_le_dec (5 - Z.of_nat board_len) 0) as [Hneg | Hpos].
  - unfold comb in H. apply Z.ltb_lt in Hneg. rewrite Hneg, orb_true_r in H.
    discriminate.
  - rewrite comb_C in H by lia.
    assert (Hd : d = C (52 - (Z.of_nat board_len + 2)) (5 - Z.of_nat board_len))
      by congruence.
    assert (Hb : 0 <= Z.of_nat board_len <= 5) by lia.
    pose proof (C_denominator_pos (Z.of_nat board_len) Hb). lia.
Qed.

Lemma outs_body_no_ZeroDivisionError (guard : Z -> bool) (nn kk : Z -> Z)
      (board_len : nat) (v : Z) (p : Q) :
  outs_body guard nn kk (52 - (Z.of_nat board_len + 2)) (5 - Z.of_nat board_len) v p
  <> Raise ZeroDivisionError.
Proof.
  unfold outs_body. destruct (guard v); [| discriminate].
  apply bind_not_raise.
  { intros H. apply comb_ValueError in H. discriminate. }
  intros n _. apply bind_not_raise.
  { intros H. apply comb_ValueError in H. discriminate. }
  intros d Hd. apply denominator_nonzero in Hd.
  unfold truediv. apply Z.eqb_neq in Hd. rewrite Hd. discriminate.
Qed.

Lemma counting_no_ZeroDivisionError {A : Type}
      (xs : list A) (body : A -> dict -> result dict) (d : dict) :
  (forall x d' e, body x d' = Raise e -> e = IndexError \/ e = KeyError) ->
  for_each xs body d <> Raise ZeroDivisionError.
Proof.
  intros H. apply for_each_not_raise. intros x d' E.
  destruct (H x d' _ E); discriminate.
Qed.

Lemma royal_count_errors (ranks suits : list Z) (i : nat) (d : dict) (e : exn) :
  (r <- index ranks i ;;
   if mem r royal_ranks then s <- index suits i ;; dict_incr d s else Ok d)
  = Raise e ->
  e = IndexError \/ e = KeyError.
Proof.
  destruct (index ranks i) as [r |] eqn:Er; cbn [bind].
  - destruct (mem r royal_ranks); [| discriminate].
    destruct (index suits i) as [s |] eqn:Es; cbn [bind].
    + intros H. right. eapply dict_incr_KeyError, H.
    + intros H. injection H as <-. left. eapply index_IndexError, Es.
  - intros H. injection H as <-. left. eapply index_IndexError, Er.
Qed.

Lemma quads_count_errors (ranks : list Z) (i : nat) (d : dict) (e : exn) :
  (r <- index ranks i ;; dict_incr d r) = Raise e ->
  e = IndexError \/ e = KeyError.
Proof.
  destruct (index ranks i) as [r |] eqn:Er; cbn [bind].
  - intros H. right. eapply dict_incr_KeyError, H.
  - intros H. injection H as <-. left. eapply index_IndexError, Er.
Qed.

(** X8: Neither estimator ever divides by zero, on any board and any hole: an
    over-long board is stopped by [math.comb] with a [ValueError] first. *)
Theorem never_ZeroDivisionError (h : store) (board : Hand.t) (hole : HoleCards.t) :
  royal_probability h board hole <> Raise ZeroDivisionError /\
  quads_prob h board hole <> Raise ZeroDivisionError.
Proof.
  split.
  - unfold royal_probability.
    apply bind_not_raise; [| intros d1 _; apply bind_not_raise; [| intros d2 _]].
    1-2: apply counting_no_ZeroDivisionError; intros i d' e; apply royal_count_errors.
    apply for_each_not_raise. intros v p.
    apply (outs_body_no_ZeroDivisionError (fun v => v >=? Z.of_nat (Hand.len board h))
             (fun v => 52 - (Z.of_nat (Hand.len board h) + 2 + 5 - v))
             (fun v => 5 - Z.of_nat (Hand.len board h) - (5 - v))).
  - unfold quads_prob.
    apply bind_not_raise; [| intros d1 _; apply bind_not_raise; [| intros d2 _]].
    1-2: apply counting_no_ZeroDivisionError; intros i d' e; apply quads_count_errors.
    apply for_each_not_raise. intros v p.
    apply (outs_body_no_ZeroDivisionError (fun v => 4 - v <=? 5 - Z.of_nat (Hand.len board h))
             (fun v => 52 - (Z.of_nat (Hand.len board h) + 2 + 4 - v))
             (fun v => 5 - Z.of_nat (Hand.len board h) - (4 - v))).
Qed.

(** *** A hand out of sync *)

Lemma cards_of_ranks_suits (ranks suits : list Z) :
  length ranks = length suits ->
  exists cs, map rank cs = ranks /\ map suit cs = suits.
Proof.
  revert suits. induction ranks as [| r ranks IH]; intros [| s suits] Hlen;
    try discriminate.
  - exists []. split; reflexivity.
  - injection Hlen as Hlen. destruct (IH suits Hlen) as (cs & <- & <-).
    exists (mkCard s r :: cs). split; reflexivity.
Qed.

Lemma for_each_past_the_end {St : Type} (ranks : list Z) (n : nat)
      (body : nat -> St -> result St) (s s' : St) :
  (length ranks < n)%nat ->
  for_each (range (length ranks)) body s = Ok s' ->
  body (length ranks) s' = Raise IndexError ->
  for_each (range n) body s = Raise IndexError.
Proof.
  intros Hlt Hfirst Hnext. unfold range in *.
  replace n with (length ranks + S (n - length ranks - 1))%nat by lia.
  rewrite seq_app, for_each_app, Hfirst. cbn [bind].
  simpl. rewrite Hnext. reflexivity.
Qed.

Lemma index_past_the_end {A : Type} (l : list A) : index l (length l) = Raise IndexError.
Proof.
  unfold index. rewrite (proj2 (nth_error_None l (length l))) by lia. reflexivity.
Qed.

(** X9: A hand left with fewer ranks than cards, as after [add_card] through
    another hand on the same list, makes both estimators raise [IndexError]. *)
Theorem out_of_sync_IndexError (h : store) (board : Hand.t) (hole : HoleCards.t) :
  length (Hand.ranks board) = length (Hand.suits board) ->
  (length (Hand.ranks board) < Hand.len board h)%nat ->
  Forall (fun r => 1 <= r <= 13) (Hand.ranks board) ->
  Forall (fun s => 1 <= s <= 4) (Hand.suits board) ->
  royal_probability h board hole = Raise IndexError /\
  quads_prob h board hole = Raise IndexError.
Proof.
  intros Hlen Hlt Hranks Hsuits.
  destruct (cards_of_ranks_suits _ _ Hlen) as (cs & Hr & Hs).
  split.
  - unfold royal_probability.
    erewrite (for_each_past_the_end (Hand.ranks board));
      [reflexivity | exact Hlt | | ].
    + rewrite <- Hr, <- Hs, length_map, royal_loop.
      apply for_each_dict_incr; [| exact NoDup_all_suits].
      intros k Hk. apply in_map_iff in Hk. destruct Hk as (c & <- & Hc).
      apply filter_In in Hc. destruct Hc as [Hc _].
      rewrite Forall_forall in Hsuits.
      apply in_all_suits, Hsuits. rewrite <- Hs. apply in_map, Hc.
    + rewrite index_past_the_end. reflexivity.
  - unfold quads_prob.
    erewrite (for_each_past_the_end (Hand.ranks board));
      [reflexivity | exact Hlt | | ].
    + rewrite for_each_range_index.
      apply for_each_dict_incr; [| exact NoDup_all_ranks].
      intros k Hk. rewrite Forall_forall in Hranks.
      apply in_all_ranks, Hranks, Hk.
    + rewrite index_past_the_end. reflexivity.
Qed.

(** *** A board of more than five cards *)

Lemma outs_loop_overlong (guard : Z -> bool) (nn kk : Z -> Z) (dn dk : Z)
      (vs : list Z) (p0 : Q) :
  dk < 0 ->
  (forall v, In v vs -> guard v = true -> 0 <= nn v /\ 0 <= kk v) ->
  for_each vs (outs_body guard nn kk dn dk) p0 =
  if existsb guard vs then Raise ValueError else Ok p0.
Proof.
  intros Hdk Hargs. induction vs as [| v vs IH]; [reflexivity |].
  simpl. unfold outs_body at 1. destruct (guard v) eqn:G; simpl.
  - destruct (Hargs v (or_introl eq_refl) G) as [Hn Hk].
    rewrite comb_C by assumption. cbn [bind].
    unfold comb. apply Z.ltb_lt in Hdk. rewrite Hdk, orb_true_r. reflexivity.
  - apply IH. intros w Hw. apply Hargs. right; exact Hw.
Qed.

(** A test on the values of the keys is a test on the keys. *)
Lemma existsb_values (value : Z -> Z) (test : Z -> bool) (keys : list Z) :
  existsb test (map value keys) = existsb (fun k => test (value k)) keys.
Proof.
  induction keys as [| k keys IH]; [reflexivity |].
  simpl. rewrite IH. reflexivity.
Qed.

Lemma existsb_false {A : Type} (g : A -> bool) (l : list A) :
  (forall x, In x l -> g x = false) -> existsb g l = false.
Proof.
  intros H. induction l as [| x l IH]; simpl; [reflexivity |].
  rewrite (H x (or_introl eq_refl)), IH; [reflexivity |].
  intros y Hy. apply H. right; exact Hy.
Qed.

Lemma royal_keys_valid (cs : list Card) :
  Forall valid_card cs ->
  forall k, In k (map suit (filter (fun c => mem (rank c) royal_ranks) cs)) ->
       In k (map fst (map (fun k : Z => (k, 0)) all_suits)).
Proof.
  intros Hvalid k Hk. apply in_map_iff in Hk. destruct Hk as (c & <- & Hc).
  apply filter_In in Hc. destruct Hc as [Hc _].
  rewrite Forall_forall in Hvalid. apply (in_all_suits (suit c)), Hvalid, Hc.
Qed.

Lemma quads_keys_valid (cs : list Card) :
  Forall valid_card cs ->
  forall k, In k (map rank cs) ->
       In k (map fst (map (fun k : Z => (k, 0)) all_ranks)).
Proof.
  intros Hvalid k Hk. apply in_map_iff in Hk. destruct Hk as (c & <- & Hc).
  rewrite Forall_forall in Hvalid. apply (in_all_ranks (rank c)), Hvalid, Hc.
Qed.

(** X10: The constructor of [Hand] lets a board of more than five cards through.
    On such a board each estimator returns 0 when no count passes its guard
    and raises [ValueError], from [math.comb] on a negative argument, when one
    does; with distinct cards none does. *)
Theorem overlong_board (h : store) (board : Hand.t) (hole : HoleCards.t) :
  Hand.in_sync h board -> HoleCards.in_sync h hole ->
  (5 < Hand.len board h)%nat ->
  length (h (HoleCards.cards hole)) = 2%nat ->
  Forall valid_card (h (Hand.cards board) ++ h (HoleCards.cards hole)) ->
  let board_len := Z.of_nat (Hand.len board h) in
  let cs := h (Hand.cards board) ++ h (HoleCards.cards hole) in
  royal_probability h board hole =
    (if existsb (fun s => royals s cs >=? board_len) all_suits
     then Raise ValueError else Ok 0%Q) /\
  quads_prob h board hole =
    (if existsb (fun r => 4 - rank_count r cs <=? 5 - board_len) all_ranks
     then Raise ValueError else Ok 0%Q) /\
  (NoDup cs ->
   royal_probability h board hole = Ok 0%Q /\ quads_prob h board hole = Ok 0%Q).
Proof.
  intros Hb Hh Hlen Hhole Hvalid board_len cs.
  assert (Hroyal : royal_probability h board hole =
    if existsb (fun s => royals s cs >=? board_len) all_suits
    then Raise ValueError else Ok 0%Q).
  { rewrite (royal_probability_loops h board hole Hb Hh Hhole).
    fold board_len cs.
    rewrite for_each_dict_incr;
      [| apply royal_keys_valid, Hvalid | exact NoDup_all_suits].
    cbn [bind]. rewrite tally_values, outs_loop_overlong.
    - rewrite existsb_values.
      rewrite (existsb_pointwise _ (fun s => royals s cs >=? board_len));
        [reflexivity |].
      intros s. rewrite count_map_filter. reflexivity.
    - unfold board_len. lia.
    - intros v _ G. unfold board_len in *. lia. }
  assert (Hquads : quads_prob h board hole =
    if existsb (fun r => 4 - rank_count r cs <=? 5 - board_len) all_ranks
    then Raise ValueError else Ok 0%Q).
  { rewrite (quads_prob_loops h board hole Hb Hh Hhole).
    fold board_len cs.
    rewrite for_each_dict_incr;
      [| apply quads_keys_valid, Hvalid | exact NoDup_all_ranks].
    cbn [bind]. rewrite tally_values, outs_loop_overlong.
    - rewrite existsb_values.
      rewrite (existsb_pointwise _ (fun r => 4 - rank_count r cs <=? 5 - board_len));
        [reflexivity |].
      intros r. rewrite count_rank. reflexivity.
    - unfold board_len. lia.
    - intros v _ G. unfold board_len in *. lia. }
  split; [exact Hroyal |]. split; [exact Hquads |].
  intros Hnd. rewrite Hroyal, Hquads.
  rewrite !existsb_false; [split; reflexivity | |].
  - intros r _. pose proof (rank_count_le_4 r cs Hnd Hvalid).
    apply Z.leb_gt. unfold board_len. lia.
  - intros s _. pose proof (royals_le_5 s cs Hnd).
    unfold board_len. lia.
Qed.

(** *** A complete board *)

Lemma Zsum_ge_element (x : Z) (l : list Z) :
  Forall (fun v => 0 <= v) l -> In x l -> x <= Zsum l.
Proof.
  induction 1 as [| v l Hv Hl IH]; simpl; [tauto |].
  pose proof (Zsum_nonneg l Hl).
  intros [-> | Hin]; [lia | specialize (IH Hin); lia].
Qed.

Lemma Zsum_zero {A : Type} (f : A -> Z) (l : list A) :
  (forall x, In x l -> f x = 0) -> Zsum (map f l) = 0.
Proof.
  intros H. induction l as [| x l IH]; simpl; [reflexivity |].
  rewrite (H x (or_introl eq_refl)), IH; [reflexivity |].
  intros y Hy. apply H. right; exact Hy.
Qed.

Lemma indicator_sum {A : Type} (f : A -> Z) (test : A -> bool) (l : list A) :
  0 <= Zsum (map f l) <= 1 ->
  (forall x, In x l -> 0 <= f x) ->
  (forall x, In x l -> test x = true -> f x = 1) ->
  (forall x, In x l -> test x = false -> f x = 0) ->
  Zsum (map f l) = if existsb test l then 1 else 0.
Proof.
  intros Hbound Hnonneg Htrue Hfalse.
  destruct (existsb test l) eqn:E.
  - apply existsb_exists in E. destruct E as (x & Hx & Ht).
    assert (f x <= Zsum (map f l)).
    { apply Zsum_ge_element; [| apply in_map, Hx].
      apply Forall_forall. intros v Hv. apply in_map_iff in Hv.
      destruct Hv as (y & <- & Hy). apply Hnonneg, Hy. }
    rewrite (Htrue x Hx Ht) in *. lia.
  - apply Zsum_zero. intros x Hx. apply Hfalse; [exact Hx |].
    destruct (test x) eqn:Ex; [| reflexivity].
    assert (existsb test l = true) by (apply existsb_exists; eauto). congruence.
Qed.

(** X11: With the five cards of the board dealt, on a legal deal, the estimators
    are indicators: [royal_probability] is 1 when some suit holds its five
    royal cards among board and hole and 0 otherwise, [quads_prob] is 1 when
    some rank holds its four cards and 0 otherwise. *)
Theorem complete_board (h : store) (board : Hand.t) (hole : HoleCards.t) :
  Hand.in_sync h board -> HoleCards.in_sync h hole ->
  Hand.len board h = 5%nat ->
  length (h (HoleCards.cards hole)) = 2%nat ->
  Forall valid_card (h (Hand.cards board) ++ h (HoleCards.cards hole)) ->
  NoDup (h (Hand.cards board) ++ h (HoleCards.cards hole)) ->
  let cs := h (Hand.cards board) ++ h (HoleCards.cards hole) in
  (exists q, royal_probability h board hole = Ok q /\
     (q == if existsb (fun s => royals s cs =? 5) all_suits then 1 else 0)%Q) /\
  (exists q, quads_prob h board hole = Ok q /\
     (q == if existsb (fun r => rank_count r cs =? 4) all_ranks then 1 else 0)%Q).
Proof.
  intros Hb Hh Hlen Hhole Hvalid Hnd cs.
  assert (Hcs : Z.of_nat (length cs) = 5 + 2).
  { unfold cs. rewrite length_app, Hhole. unfold Hand.len in Hlen. rewrite Hlen. reflexivity. }
  assert (HC : C (52 - (5 + 2)) (5 - 5) = 1) by reflexivity.
  split.
  - destruct (royal_probability_fraction h board hole Hb Hh) as (q & Hq & Hsum);
      [lia | exact Hhole | exact Hvalid |].
    exists q. split; [exact Hq |].
    rewrite Hlen in Hsum. change (Z.of_nat 5) with 5 in Hsum. fold cs in Hsum.
    rewrite Hsum, HC.
    pose proof (royal_numerators_bounded 5 cs ltac:(lia) Hnd Hcs) as Hbound.
    rewrite HC in Hbound.
    rewrite (indicator_sum _ (fun s => royals s cs =? 5) all_suits Hbound).
    + case_if; reflexivity.
    + intros s _. unfold royal_num. cbv zeta. case_if; [apply C_nonneg | lia].
    + intros s _ E. apply Z.eqb_eq in E. rewrite E. reflexivity.
    + intros s _ E. apply Z.eqb_neq in E. pose proof (royals_le_5 s cs Hnd).
      unfold royal_num. cbv zeta.
      assert (G : (royals s cs >=? 5) = false) by lia. rewrite G. reflexivity.
  - destruct (quads_prob_fraction h board hole Hb Hh) as (q & Hq & Hsum);
      [lia | exact Hhole | exact Hvalid |].
    exists q. split; [exact Hq |].
    rewrite Hlen in Hsum. change (Z.of_nat 5) with 5 in Hsum. fold cs in Hsum.
    rewrite Hsum, HC.
    pose proof (quads_numerators_bounded 5 cs ltac:(lia) Hnd Hvalid Hcs) as Hbound.
    rewrite HC in Hbound.
    rewrite (indicator_sum _ (fun r => rank_count r cs =? 4) all_ranks Hbound).
    + case_if; reflexivity.
    + intros r _. unfold quads_num. cbv zeta. case_if; [apply C_nonneg | lia].
    + intros r _ E. apply Z.eqb_eq in E. rewrite E. reflexivity.
    + intros r _ E. apply Z.eqb_neq in E. pose proof (rank_count_le_4 r cs Hnd Hvalid).
      unfold quads_num. cbv zeta.
      assert (G : (4 - rank_count r cs <=? 5 - 5) = false) by lia. rewrite G. reflexivity.
Qed.

(** *** The order of the cards *)

Lemma filter_length_Permutation {A : Type} (f : A -> bool) (l l' : list A) :
  Permutation l l' -> length (filter f l) = length (filter f l').
Proof.
  induction 1 as [| x l l' _ IH | x y l | l l' l'' _ IH1 _ IH2]; simpl.
  - reflexivity.
  - destruct (f x); simpl; rewrite IH; reflexivity.
  - destruct (f x), (f y); reflexivity.
  - congruence.
Qed.

(** X12: On boards of the same length, at most five, the estimators depend only
    on which cards are visible: neither their order nor whether a card lies
    on the board or in the hole changes the result. *)
Theorem estimators_order (h1 h2 : store) (board1 board2 : Hand.t)
    (hole1 hole2 : HoleCards.t) :
  Hand.in_sync h1 board1 -> HoleCards.in_sync h1 hole1 ->
  Hand.in_sync h2 board2 -> HoleCards.in_sync h2 hole2 ->
  (Hand.len board1 h1 <= 5)%nat ->
  Hand.len board2 h2 = Hand.len board1 h1 ->
  length (h1 (HoleCards.cards hole1)) = 2%nat ->
  length (h2 (HoleCards.cards hole2)) = 2%nat ->
  Forall valid_card (h1 (Hand.cards board1) ++ h1 (HoleCards.cards hole1)) ->
  Permutation (h1 (Hand.cards board1) ++ h1 (HoleCards.cards hole1))
              (h2 (Hand.cards board2) ++ h2 (HoleCards.cards hole2)) ->
  (exists q1 q2, royal_probability h1 board1 hole1 = Ok q1 /\
                 royal_probability h2 board2 hole2 = Ok q2 /\ (q1 == q2)%Q) /\
  (exists q1 q2, quads_prob h1 board1 hole1 = Ok q1 /\
                 quads_prob h2 board2 hole2 = Ok q2 /\ (q1 == q2)%Q).
Proof.
  intros Hb1 Hh1 Hb2 Hh2 Hlen1 Hlen2 Hhole1 Hhole2 Hvalid1 Hperm.
  assert (Hvalid2 : Forall valid_card (h2 (Hand.cards board2) ++ h2 (HoleCards.cards hole2))).
  { apply Forall_forall. intros c Hc. rewrite Forall_forall in Hvalid1.
    apply Hvalid1. apply (Permutation_in _ (Permutation_sym Hperm)), Hc. }
  split.
  - destruct (royal_probability_fraction h1 board1 hole1 Hb1 Hh1 Hlen1 Hhole1 Hvalid1)
      as (q1 & Hq1 & Hs1).
    destruct (royal_probability_fraction h2 board2 hole2 Hb2 Hh2) as (q2 & Hq2 & Hs2);
      [lia | exact Hhole2 | exact Hvalid2 |].
    exists q1, q2. split; [exact Hq1 |]. split; [exact Hq2 |].
    rewrite Hs1, Hs2, Hlen2.
    assert (E : forall s,
      royals s (h1 (Hand.cards board1) ++ h1 (HoleCards.cards hole1))
      = royals s (h2 (Hand.cards board2) ++ h2 (HoleCards.cards hole2))).
    { intros s. unfold royals.
      rewrite (filter_length_Permutation _ _ _ Hperm). reflexivity. }
    rewrite (map_ext _ _
      (fun s => f_equal (royal_num (Z.of_nat (Hand.len board1 h1))) (E s))).
    reflexivity.
  - destruct (quads_prob_fraction h1 board1 hole1 Hb1 Hh1 Hlen1 Hhole1 Hvalid1)
      as (q1 & Hq1 & Hs1).
    destruct (quads_prob_fraction h2 board2 hole2 Hb2 Hh2) as (q2 & Hq2 & Hs2);
      [lia | exact Hhole2 | exact Hvalid2 |].
    exists q1, q2. split; [exact Hq1 |]. split; [exact Hq2 |].
    rewrite Hs1, Hs2, Hlen2.
    assert (E : forall r,
      rank_count r (h1 (Hand.cards board1) ++ h1 (HoleCards.cards hole1))
      = rank_count r (h2 (Hand.cards board2) ++ h2 (HoleCards.cards hole2))).
    { intros r. unfold rank_count.
      rewrite (filter_length_Permutation _ _ _ Hperm). reflexivity. }
    rewrite (map_ext _ _
      (fun r => f_equal (quads_num (Z.of_nat (Hand.len board1 h1))) (E r))).
    reflexivity.
Qed.

(** ** Printing a card *)

Lemma valid_card_in_deck (c : Card) : valid_card c -> In c deck.
Proof.
  destruct c as [s r]. unfold valid_card. cbn [suit rank]. intros [Hs Hr].
  unfold deck. apply in_flat_map. exists s. split; [apply in_all_suits, Hs |].
  apply in_map, in_all_ranks, Hr.
Qed.

Lemma getitem_wrap {A : Type} (l : list A) (i : Z) :
  - Z.of_nat (length l) <= i < 0 ->
  getitem l i = getitem l (i + Z.of_nat (length l)).
Proof.
  intros H. unfold getitem. cbv zeta.
  assert (E1 : (i <? 0) = true) by lia.
  assert (E2 : (i + Z.of_nat (length l) <? 0) = false) by lia.
  rewrite E1, E2. reflexivity.
Qed.

Lemma getitem_defined {A : Type} (l : list A) (i : Z) :
  (- Z.of_nat (length l) <= i < Z.of_nat (length l) ->
   exists a, getitem l i = Ok a) /\
  (~ - Z.of_nat (length l) <= i < Z.of_nat (length l) ->
   getitem l i = Raise IndexError).
Proof.
  assert (Hindex : forall n, (n < length l)%nat -> exists a, index l n = Ok a).
  { intros n Hn. unfold index. destruct (nth_error l n) eqn:E; [eauto |].
    apply nth_error_None in E. lia. }
  assert (Hnone : forall n, (length l <= n)%nat -> index l n = Raise IndexError).
  { intros n Hn. unfold index. rewrite (proj2 (nth_error_None l n) Hn). reflexivity. }
  unfold getitem. cbv zeta. split; intros H.
  - destruct (i <? 0) eqn:E1.
    + assert (E2 : (i + Z.of_nat (length l) <? 0) = false) by lia.
      rewrite E2. apply Hindex. lia.
    + apply Hindex. lia.
  - destruct (i <? 0) eqn:E1.
    + assert (E2 : (i + Z.of_nat (length l) <? 0) = true) by lia.
      rewrite E2. reflexivity.
    + apply Hnone. lia.
Qed.

Section ReprProperties.

Import String.

(** X13: Every card of the deck has a name, and no two cards of the deck share
    one. *)
Theorem repr_deck (c1 c2 : Card) :
  valid_card c1 -> valid_card c2 ->
  exists s1 s2, Repr.repr c1 = Ok s1 /\ Repr.repr c2 = Ok s2 /\
                (s1 = s2 -> c1 = c2).
Proof.
  intros H1 H2. apply valid_card_in_deck in H1, H2.
  assert (Hok : forallb (fun c => match Repr.repr c with Ok _ => true | Raise _ => false end)
                        deck = true) by (vm_compute; reflexivity).
  assert (Hinj : Repr.repr_distinctb deck = true) by (vm_compute; reflexivity).
  rewrite forallb_forall in Hok.
  pose proof (Hok c1 H1) as Hc1. pose proof (Hok c2 H2) as Hc2.
  destruct (Repr.repr c1) as [s1 |] eqn:E1; [| discriminate].
  destruct (Repr.repr c2) as [s2 |] eqn:E2; [| discriminate].
  exists s1, s2. split; [reflexivity |]. split; [reflexivity |].
  intros <-. unfold Repr.repr_distinctb in Hinj.
  rewrite forallb_forall in Hinj. specialize (Hinj c1 H1).
  rewrite forallb_forall in Hinj. specialize (Hinj c2 H2).
  rewrite E1, E2 in Hinj. simpl in Hinj. rewrite String.eqb_refl in Hinj.
  apply Card_eqb_eq, Hinj.
Qed.

(** X14: Outside the deck: [__repr__] raises [IndexError] exactly when the rank is
    not in -12..13 or the suit not in -3..4, and a rank or a suit below 1
    inside these ranges is printed as the one thirteen, or four, higher;
    rank 0 is printed as a king. *)
Theorem repr_out_of_range (c : Card) :
  ((-12 <= rank c <= 13 /\ -3 <= suit c <= 4) ->
   exists s, Repr.repr c = Ok s) /\
  (~ (-12 <= rank c <= 13 /\ -3 <= suit c <= 4) ->
   Repr.repr c = Raise IndexError) /\
  (-12 <= rank c <= 0 ->
   Repr.repr c = Repr.repr (mkCard (suit c) (rank c + 13))) /\
  (-3 <= suit c <= 0 ->
   Repr.repr c = Repr.repr (mkCard (suit c + 4) (rank c))).
Proof.
  destruct c as [s r]. cbn [suit rank]. unfold Repr.repr. cbv zeta.
  set (ranks := cons "Ace"%string _). set (suits := cons "Hearts"%string _).
  pose proof (getitem_defined ranks (r - 1)) as [Hr1 Hr2].
  pose proof (getitem_defined suits (s - 1)) as [Hs1 Hs2].
  change (Z.of_nat (Datatypes.length ranks)) with 13 in *.
  change (Z.of_nat (Datatypes.length suits)) with 4 in *.
  split; [| split; [| split]].
  - intros [Hr Hs]. destruct Hr1 as [a Ha]; [lia |]. destruct Hs1 as [b Hb]; [lia |].
    cbn [rank suit]. rewrite Ha, Hb. cbn [bind]. eauto.
  - intros H. cbn [rank suit].
    destruct (Z_le_dec (-12) r) as [H1 |]; [| rewrite Hr2 by lia; reflexivity].
    destruct (Z_le_dec r 13) as [H2 |]; [| rewrite Hr2 by lia; reflexivity].
    destruct Hr1 as [a Ha]; [lia |]. rewrite Ha, Hs2 by lia. reflexivity.
  - intros H. cbn [rank suit]. rewrite (getitem_wrap ranks (r - 1)).
    + change (Z.of_nat (Datatypes.length ranks)) with 13.
      replace (r - 1 + 13) with (r + 13 - 1) by lia. reflexivity.
    + change (Z.of_nat (Datatypes.length ranks)) with 13. lia.
  - intros H. cbn [rank suit]. rewrite (getitem_wrap suits (s - 1)).
    + change (Z.of_nat (Datatypes.length suits)) with 4.
      replace (s - 1 + 4) with (s + 4 - 1) by lia. reflexivity.
    + change (Z.of_nat (Datatypes.length suits)) with 4. lia.
Qed.

End ReprProperties.

(** ** The further theorems at concrete deals *)

Lemma hand_rank_two_ranks_witness :
  hand_rank (board_of four_aces_king) = Ok 3 /\
  hand_rank (board_of full_house_cards) = Ok 4.
Proof.
  split.
  - apply (hand_rank_two_ranks (board_of four_aces_king) hearts diamonds);
      [vm_compute; auto | vm_compute; auto | discriminate | reflexivity].
  - apply (hand_rank_two_ranks (board_of full_house_cards) hearts diamonds);
      [vm_compute; auto | vm_compute; auto | discriminate | reflexivity].
Defined.

Lemma hand_rank_three_ranks_witness :
  hand_rank (board_of two_pair_cards) = Ok 8 /\
  hand_rank (board_of (three_aces ++ [mkCard clubs 9])) = Ok 7.
Proof.
  split.
  - apply (hand_rank_three_ranks (board_of two_pair_cards) hearts diamonds);
      [vm_compute; auto | vm_compute; auto | discriminate | reflexivity].
  - apply (hand_rank_three_ranks
             (board_of (three_aces ++ [mkCard clubs 9])) hearts diamonds);
      [vm_compute; auto | vm_compute; auto | discriminate | reflexivity].
Defined.

Lemma hand_rank_pair_witness : hand_rank (board_of pair_cards) = Ok 9.
Proof.
  apply (hand_rank_pair (board_of pair_cards) hearts diamonds);
    [vm_compute; auto | vm_compute; auto | discriminate | reflexivity].
Defined.

Lemma hand_rank_order_witness :
  hand_rank (board_of wheel_cards) = hand_rank (board_of (rev wheel_cards)).
Proof.
  apply (hand_rank_order (deal_store wheel_cards []) (deal_store (rev wheel_cards) [])
           (board_of wheel_cards) (board_of (rev wheel_cards))).
  - split; reflexivity.
  - split; reflexivity.
  - apply Permutation_rev.
  - reflexivity.
Defined.

Lemma add_cards_cap_witness :
  exists self' h',
    snd (add_cards six_cards (shared_hand, shared_store)) = (self', h') /\
    h' 0%nat = [mkCard hearts ace; mkCard hearts 2; mkCard hearts 3;
                mkCard hearts 4; mkCard hearts 5] /\
    (forall r, r <> 0%nat -> h' r = shared_store r) /\
    Hand.init 0%nat h' = Ok self' /\
    fst (add_cards six_cards (shared_hand, shared_store)) = Raise ValueError.
Proof.
  apply (add_cards_cap six_cards shared_store shared_hand).
  - split; reflexivity.
  - vm_compute. lia.
Defined.

Lemma quads_prob_KeyError_witness :
  quads_prob (deal_store rank_zero seven_nine) (board_of rank_zero) (hole_of seven_nine)
  = Raise KeyError.
Proof.
  apply (quads_prob_KeyError (deal_store rank_zero seven_nine) (board_of rank_zero)
           (hole_of seven_nine) (mkCard hearts 0)).
  - split; reflexivity.
  - split; reflexivity.
  - reflexivity.
  - vm_compute. auto.
  - vm_compute. intros [H _]. apply H. reflexivity.
Defined.

Lemma royal_probability_KeyError_witness :
  royal_probability (deal_store fifth_suit seven_nine) (board_of fifth_suit)
                    (hole_of seven_nine)
  = Raise KeyError.
Proof.
  apply (royal_probability_KeyError (deal_store fifth_suit seven_nine)
           (board_of fifth_suit) (hole_of seven_nine) (mkCard 5 ace)).
  - split; reflexivity.
  - split; reflexivity.
  - reflexivity.
  - vm_compute. auto.
  - vm_compute. auto.
  - vm_compute. intros [_ H]. apply H. reflexivity.
Defined.

Lemma out_of_sync_IndexError_witness :
  royal_probability desynced_store desynced_hand (hole_of seven_nine) = Raise IndexError /\
  quads_prob desynced_store desynced_hand (hole_of seven_nine) = Raise IndexError.
Proof.
  apply (out_of_sync_IndexError desynced_store desynced_hand (hole_of seven_nine)).
  - reflexivity.
  - vm_compute. lia.
  - repeat constructor; vm_compute; discriminate.
  - repeat constructor; vm_compute; discriminate.
Defined.

Lemma overlong_board_witness :
  royal_probability (deal_store six_cards spade_hole) (board_of six_cards)
                    (hole_of spade_hole) = Ok 0%Q /\
  quads_prob (deal_store six_cards spade_hole) (board_of six_cards)
             (hole_of spade_hole) = Ok 0%Q.
Proof.
  apply (overlong_board (deal_store six_cards spade_hole) (board_of six_cards)
           (hole_of spade_hole)).
  - split; reflexivity.
  - split; reflexivity.
  - vm_compute. lia.
  - reflexivity.
  - valid_cards.
  - distinct_cards.
Defined.

Lemma complete_board_witness :
  (exists q, royal_probability (deal_store royal_flush_cards seven_nine)
               (board_of royal_flush_cards) (hole_of seven_nine) = Ok q /\
     (q == 1)%Q) /\
  (exists q, quads_prob (deal_store royal_flush_cards seven_nine)
               (board_of royal_flush_cards) (hole_of seven_nine) = Ok q /\
     (q == 0)%Q).
Proof.
  apply (complete_board (deal_store royal_flush_cards seven_nine)
           (board_of royal_flush_cards) (hole_of seven_nine)).
  - split; reflexivity.
  - split; reflexivity.
  - reflexivity.
  - reflexivity.
  - valid_cards.
  - distinct_cards.
Defined.

Lemma estimators_order_witness :
  (exists q1 q2,
     royal_probability (deal_store three_aces seven_nine)
       (board_of three_aces) (hole_of seven_nine) = Ok q1 /\
     royal_probability (deal_store three_aces_seven five_nine)
       (board_of three_aces_seven) (hole_of five_nine) = Ok q2 /\ (q1 == q2)%Q) /\
  (exists q1 q2,
     quads_prob (deal_store three_aces seven_nine)
       (board_of three_aces) (hole_of seven_nine) = Ok q1 /\
     quads_prob (deal_store three_aces_seven five_nine)
       (board_of three_aces_seven) (hole_of five_nine) = Ok q2 /\ (q1 == q2)%Q).
Proof.
  apply (estimators_order (deal_store three_aces seven_nine)
           (deal_store three_aces_seven five_nine)
           (board_of three_aces) (board_of three_aces_seven)
           (hole_of seven_nine) (hole_of five_nine)).
  - split; reflexivity.
  - split; reflexivity.
  - split; reflexivity.
  - split; reflexivity.
  - vm_compute. lia.
  - reflexivity.
  - reflexivity.
  - reflexivity.
  - valid_cards.
  - vm_compute. do 3 apply perm_skip. apply perm_swap.
Defined.

Section ReprWitnesses.

Import String.

Lemma repr_deck_witness :
  exists s1 s2,
    Repr.repr (mkCard hearts ace) = Ok s1 /\
    Repr.repr (mkCard clubs king) = Ok s2 /\
    (s1 = s2 -> mkCard hearts ace = mkCard clubs king).
Proof.
  apply (repr_deck (mkCard hearts ace) (mkCard clubs king)); vm_compute;
    repeat split; discriminate.
Defined.

(** A card of rank 0 is printed as a king. *)
Lemma repr_out_of_range_witness :
  Repr.repr (mkCard hearts 0) = Ok "King of Hearts"%string /\
  Repr.repr (mkCard hearts 14) = Raise IndexError.
Proof.
  split.
  - destruct (repr_out_of_range (mkCard hearts 0)) as (_ & _ & Hwrap & _).
    rewrite Hwrap; [reflexivity | cbn [rank]; lia].
  - destruct (repr_out_of_range (mkCard hearts 14)) as (_ & Hout & _).
    apply Hout. cbn [rank suit]. lia.
Defined.

End ReprWitnesses.
